(** * Malayalam text extractor for Common Crawl archives

    A shallow embedding of [malayalam_extractor.py] and the properties its
    specification states about it.

    Conventions of the embedding.
    - A Python [str] is the list of its code points ([list N]); a [bytes]
      object is the list of its byte values.  A file holds such a list;
      the text codec of [open] is not modelled.
    - The file system is a finite map from path strings to contents;
      directories are assumed to exist (the module creates both of them
      when it is loaded).
    - The libraries the program calls are not part of it: the HTML parser
      [BeautifulSoup], the archive reader [ArchiveIterator], the [wget]
      process, the clock and the rendering of floating-point numbers are
      parameters of the development.  What the program does with their
      results is modelled in full.
    - Console output ([print]) is not modelled. *)

From Stdlib Require Import String Ascii DecimalString.
From stdpp Require Import gmap list fin_maps.

Local Open Scope N_scope.

(** ** Python strings *)

(** Code points of an ASCII literal. *)
Definition lit (s : string) : list N :=
  N_of_ascii <$> list_ascii_of_string s.

(** [sep.join(parts)] *)
Fixpoint join (sep : list N) (parts : list (list N)) : list N :=
  match parts with
  | [] => []
  | [p] => p
  | p :: rest => p ++ sep ++ join sep rest
  end.

(** [str.isspace] on one code point: the characters [str.strip] removes. *)
Definition isspace (c : N) : bool :=
  ((0x09 <=? c) && (c <=? 0x0D)) || ((0x1C <=? c) && (c <=? 0x20))
  || (c =? 0x85) || (c =? 0xA0) || (c =? 0x1680)
  || ((0x2000 <=? c) && (c <=? 0x200A))
  || (c =? 0x2028) || (c =? 0x2029) || (c =? 0x202F) || (c =? 0x205F)
  || (c =? 0x3000).

Fixpoint lstrip (s : list N) : list N :=
  match s with
  | [] => []
  | c :: s' => if isspace c then lstrip s' else s
  end.

Definition rstrip (s : list N) : list N := rev (lstrip (rev s)).

(** [s.strip()] *)
Definition strip (s : list N) : list N := rstrip (lstrip s).

(** ** The script filter: [re.findall] with the class U+0D00 to U+0D7F, one or more times *)

Definition in_malayalam_block (c : N) : bool :=
  (0x0D00 <=? c) && (c <=? 0x0D7F).

(** The match in progress, closed when the scan leaves the block. *)
Definition flush (cur : list N) : list (list N) :=
  match cur with
  | [] => []
  | _ => [cur]
  end.

(** Left-to-right scan: [cur] is the greedy match being extended. *)
Fixpoint findall_from (cur : list N) (s : list N) : list (list N) :=
  match s with
  | [] => flush cur
  | c :: s' =>
      if in_malayalam_block c then findall_from (cur ++ [c]) s'
      else flush cur ++ findall_from [] s'
  end.

Definition findall_malayalam (s : list N) : list (list N) :=
  findall_from [] s.

(** What "the maximal runs of block characters of [s], in order" means,
    stated without reference to the scan: [s] is cut into a gap, a run,
    a gap, a run, ... where no run can be extended on either side. *)
Definition starts_outside (s : list N) : Prop :=
  match s with
  | [] => True
  | c :: _ => in_malayalam_block c = false
  end.

Inductive maximal_runs : list N -> list (list N) -> Prop :=
  | runs_none gap :
      Forall (fun c => in_malayalam_block c = false) gap ->
      maximal_runs gap []
  | runs_more gap run rest rs :
      Forall (fun c => in_malayalam_block c = false) gap ->
      run <> [] ->
      Forall (fun c => in_malayalam_block c = true) run ->
      starts_outside rest ->
      maximal_runs rest rs ->
      maximal_runs (gap ++ run ++ rest) (run :: rs).

(** ** The parsed document *)

(** The classes of string nodes.  [stripped_strings] yields plain strings
    and CDATA sections only; comments, doctypes, declarations and
    processing instructions are passed over. *)
Inductive string_class := NavigableString | CData | OtherString.

#[local] Unset Elimination Schemes.
Inductive PageElement :=
  | Str (cls : string_class) (s : list N)
  | Tag (name : list N) (contents : list PageElement).
#[local] Set Elimination Schemes.

Definition interesting (cls : string_class) : bool :=
  match cls with
  | NavigableString | CData => true
  | OtherString => false
  end.

Definition eqb_str (a b : list N) : bool := bool_decide (a = b).

(** The tag names given to [soup([...])]. *)
Definition removed_tags : list (list N) := [lit "style"; lit "script"].

Definition is_removed_tag (e : PageElement) : bool :=
  match e with
  | Str _ _ => false
  | Tag name _ => existsb (eqb_str name) removed_tags
  end.

(** [for tag in soup(['style', 'script']): tag.decompose()]: every
    descendant element with one of the two names is detached from its
    parent, together with everything below it. *)
Fixpoint decompose_in (e : PageElement) : PageElement :=
  match e with
  | Str cls s => Str cls s
  | Tag name contents =>
      Tag name
        ((fix go (l : list PageElement) : list PageElement :=
            match l with
            | [] => []
            | x :: l' =>
                if is_removed_tag x then go l' else decompose_in x :: go l'
            end) contents)
  end.

Fixpoint decompose_all (l : list PageElement) : list PageElement :=
  match l with
  | [] => []
  | x :: l' =>
      if is_removed_tag x then decompose_all l'
      else decompose_in x :: decompose_all l'
  end.

(** The string nodes below an element, in document order, each stripped;
    those that are empty after stripping are dropped. *)
Definition stripped (cls : string_class) (s : list N) : list (list N) :=
  if interesting cls then
    match strip s with
    | [] => []
    | t => [t]
    end
  else [].

Fixpoint stripped_strings_of (e : PageElement) : list (list N) :=
  match e with
  | Str cls s => stripped cls s
  | Tag _ contents =>
      (fix go (l : list PageElement) : list (list N) :=
         match l with
         | [] => []
         | x :: l' => stripped_strings_of x ++ go l'
         end) contents
  end.

(** [soup.stripped_strings], the soup being the list of top-level nodes. *)
Fixpoint stripped_strings (l : list PageElement) : list (list N) :=
  match l with
  | [] => []
  | x :: l' => stripped_strings_of x ++ stripped_strings l'
  end.

(** The text handed to the filter: [" ".join(soup.stripped_strings)]
    once the style and script elements are gone. *)
Definition visible_text (soup : list PageElement) : list N :=
  join (lit " ") (stripped_strings (decompose_all soup)).

(** The filter proper, lines 69-77. *)
Definition filter_malayalam (text : list N) (min_malayalam_words : Z)
  : option (list N) :=
  let text_content := join (lit " ") (findall_malayalam text) in
  if (min_malayalam_words <=? Z.of_nat (length text_content))%Z
  then Some text_content else None.

(** ** Paths, the token pattern and CSV rows *)

Definition slash : N := 47.

(** [os.path.join(a, b)] (posixpath). *)
Definition os_path_join (a b : list N) : list N :=
  match b with
  | c :: _ => if c =? slash then b
              else match last a with
                   | Some d => if d =? slash then a ++ b
                               else a ++ [slash] ++ b
                   | None => a ++ b
                   end
  | [] => match last a with
          | Some d => if d =? slash then a else a ++ [slash]
          | None => a
          end
  end.

(** The part of [p] after its last slash, scanning with [cur] the
    candidate collected since the last slash seen. *)
Fixpoint basename_from (cur : list N) (p : list N) : list N :=
  match p with
  | [] => cur
  | c :: p' => if c =? slash then basename_from [] p'
               else basename_from (cur ++ [c]) p'
  end.

(** [os.path.basename(p)] *)
Definition os_path_basename (p : list N) : list N := basename_from [] p.

(** [$] without MULTILINE: the end of the string, or just before a
    newline that ends the string. *)
Definition at_dollar (s : list N) : bool :=
  match s with
  | [] => true
  | [c] => c =? 10
  | _ => false
  end.

Definition starts_with (p s : list N) : bool :=
  bool_decide (take (length p) s = p).

Section TokenPattern.

(** [\d] on a [str] pattern: the code points of Unicode category Nd, a
    table of the interpreter. *)
Variable unicode_Nd : N -> bool.

Definition digits (n : nat) (s : list N) : bool :=
  (length s =? n)%nat && forallb unicode_Nd s.

(** The pattern [(\d{14}-\d{5})\.warc\.gz$] tried at the start of [s];
    the result is group 1. *)
Definition match_token_at (s : list N) : option (list N) :=
  let stamp := take 14 s in
  let dash := take 1 (drop 14 s) in
  let seq := take 5 (drop 15 s) in
  let tail := drop 20 s in
  if digits 14 stamp && eqb_str dash (lit "-") && digits 5 seq
     && starts_with (lit ".warc.gz") tail && at_dollar (drop 8 tail)
  then Some (stamp ++ dash ++ seq) else None.

(** [re.search(pattern, s)]: the leftmost position where the pattern
    matches; [None] when there is none. *)
Fixpoint re_search_token (s : list N) : option (list N) :=
  match match_token_at s with
  | Some token => Some token
  | None => match s with
            | [] => None
            | _ :: s' => re_search_token s'
            end
  end.

End TokenPattern.

(** [csv.writer] with the default (excel) dialect: a field is quoted
    when it holds the delimiter, the quote character or a line break,
    quote characters inside it are doubled, and a row ends in CR LF. *)
Definition csv_special (c : N) : bool :=
  (c =? 44) || (c =? 34) || (c =? 13) || (c =? 10).

Definition csv_double_quotes (f : list N) : list N :=
  flat_map (fun c => if c =? 34 then [34; 34] else [c]) f.

Definition csv_field (f : list N) : list N :=
  if existsb csv_special f then [34] ++ csv_double_quotes f ++ [34] else f.

Definition csv_row (fields : list (list N)) : list N :=
  match fields with
  | [[]] => [34; 34; 13; 10]
  | _ => join [44] (csv_field <$> fields) ++ [13; 10]
  end.

(** Lines of a text file opened with universal newlines: CR, LF and
    CR LF all end a line and are read as LF. *)
Fixpoint readlines_from (cur : list N) (s : list N) : list (list N) :=
  match s with
  | [] => flush cur
  | c :: s' =>
      if c =? 10 then (cur ++ [10]) :: readlines_from [] s'
      else if c =? 13 then
        match s' with
        | d :: s'' => if d =? 10 then (cur ++ [10]) :: readlines_from [] s''
                      else (cur ++ [10]) :: readlines_from [] s'
        | [] => [cur ++ [10]]
        end
      else readlines_from (cur ++ [c]) s'
  end.

Definition readlines (s : list N) : list (list N) := readlines_from [] s.

(** ** Constants of the module *)

Definition MAX_RETRIES : nat := 20.
Definition RETRY_DELAY : nat := 10.
Definition URL_PATH : list N := lit "warc.paths".
Definition OUTPUT_DIRECTORY : list N := lit "Extracted_files/".
Definition EXTRACTED_TEXT_DIRECTORY : list N := lit "Extracted Texts/".

Definition metrics_fieldnames : list (list N) :=
  [lit "File Name"; lit "File Path"; lit "Input File Size (MB)";
   lit "Output File Size (KB)"; lit "Time Taken (Minutes)"].

Definition errors_fieldnames : list (list N) := [lit "File Path"].

(** [str(n)] for a natural number. *)
Definition str_of_nat (n : nat) : list N :=
  lit (NilZero.string_of_uint (Nat.to_uint n)).

(** ** The world the program runs in *)

Inductive exn :=
  | FileNotFoundError
  | UnboundLocalError
  | CalledProcessError (returncode : Z)
  | OSError
  | ArchiveLoadFailed.

Inductive event :=
  | Spawn (argv : list (list N))
  | Sleep (seconds : nat).

Record world := World {
  files : gmap (list N) (list N);
  events : list event;   (* processes started and sleeps, oldest first *)
  ticks : nat            (* readings of the clock taken so far *)
}.

(** The number of processes started so far. *)
Fixpoint spawned (evs : list event) : nat :=
  match evs with
  | [] => O
  | Spawn _ :: evs' => S (spawned evs')
  | Sleep _ :: evs' => spawned evs'
  end.

Inductive result (A : Type) :=
  | Ok (a : A)
  | Raise (e : exn).
Arguments Ok {A} a.
Arguments Raise {A} e.

(** A statement: it runs in a world and ends normally or by raising; the
    effects it had up to that point stay. *)
Definition M (A : Type) : Type := world -> result A * world.

Definition ret {A} (a : A) : M A := fun w => (Ok a, w).
Definition raise {A} (e : exn) : M A := fun w => (Raise e, w).
Definition bind {A B} (m : M A) (k : A -> M B) : M B :=
  fun w => match m w with
           | (Ok a, w') => k a w'
           | (Raise e, w') => (Raise e, w')
           end.

Declare Scope py_scope.
Delimit Scope py_scope with py.
Notation "x <- m ;; k" := (bind m (fun x => k))
  (at level 100, m at next level, right associativity) : py_scope.
Notation "m ;; k" := (bind m (fun _ => k))
  (at level 100, right associativity) : py_scope.

Definition set_files (f : gmap (list N) (list N)) (w : world) : world :=
  {| files := f; events := events w; ticks := ticks w |}.

Definition log_event (e : event) (w : world) : world :=
  {| files := files w; events := events w ++ [e]; ticks := ticks w |}.

(** [open(path, 'r')] or ['rb'] followed by reading everything. *)
Definition read_file (path : list N) : M (list N) :=
  fun w => match files w !! path with
           | Some c => (Ok c, w)
           | None => (Raise FileNotFoundError, w)
           end.

(** [open(path, 'w')] and one write: earlier contents are lost. *)
Definition write_file (path data : list N) : M unit :=
  fun w => (Ok tt, set_files (<[path := data]> (files w)) w).

(** [open(path, 'a')] and one write: the file is created when missing. *)
Definition append_file (path data : list N) : M unit :=
  fun w => (Ok tt,
            set_files (<[path := default [] (files w !! path) ++ data]>
                         (files w)) w).

(** [os.remove(path)] *)
Definition os_remove (path : list N) : M unit :=
  fun w => match files w !! path with
           | Some _ => (Ok tt, set_files (delete path (files w)) w)
           | None => (Raise FileNotFoundError, w)
           end.

(** [time.sleep(seconds)] *)
Definition time_sleep (seconds : nat) : M unit :=
  fun w => (Ok tt, log_event (Sleep seconds) w).

(** [time.time()]: the reading is identified by its index. *)
Definition time_time : M nat :=
  fun w => (Ok (ticks w),
            {| files := files w; events := events w; ticks := S (ticks w) |}).

(** ** The program *)

Record ArcWarcRecord := {
  rec_type : list N;
  content_stream : list N
}.

(** What starting [wget] leads to: the process cannot be started, or it
    exits with a status, having left [saved] (if anything) in the file
    named after [-O]. *)
Inductive spawn_result :=
  | SpawnError
  | Exited (returncode : Z) (saved : option (list N)).

Section Program.

(** [BeautifulSoup(html_content, 'html.parser')]: the top-level nodes of
    the parsed document, or [None] when the constructor raises. *)
Variable BeautifulSoup : list N -> option (list PageElement).

(** [ArchiveIterator(warc_file)]: the records it yields and, when the
    container is damaged, the exception that ends the iteration. *)
Variable ArchiveIterator : list N -> list ArcWarcRecord * option exn.

(** The [wget] process, by the number of processes started before it
    and its argument list. *)
Variable wget : nat -> list (list N) -> spawn_result.

Variable unicode_Nd : N -> bool.

(** [os.path.getsize] of a file with the given contents. *)
Variable size_on_disk : list N -> N.

(** The text [csv] writes for [round(n / d, 2)]. *)
Variable repr_round2 : N -> N -> list N.

(** The text [csv] writes for [(end_time - start_time) / 60], the two
    readings given by their indices. *)
Variable repr_minutes : nat -> nat -> list N.

Local Open Scope py_scope.

Definition process_and_check_malayalam_text
  (html_content : list N) (min_malayalam_words : Z) : option (list N) :=
  match BeautifulSoup html_content with
  | None => None
  | Some soup => filter_malayalam (visible_text soup) min_malayalam_words
  end.

(** [os.path.getsize(path)] *)
Definition os_path_getsize (path : list N) : M N :=
  fun w => match files w !! path with
           | Some c => (Ok (size_on_disk c), w)
           | None => (Raise FileNotFoundError, w)
           end.

(** The body of the loop over the records, lines 93-111.  The state
    carried from one record to the next is the pair of local names
    [output_file_name], [output_file_path]: [None] while they are
    unbound. *)
Definition scan_record (warc_file_path output_dir : list N)
  (bound : option (list N * list N)) (record : ArcWarcRecord)
  : M (option (list N * list N)) :=
  if eqb_str (rec_type record) (lit "response") then
    match process_and_check_malayalam_text (content_stream record) 40 with
    | Some content =>
        match re_search_token unicode_Nd warc_file_path with
        | Some unique_string =>
            let output_file_name :=
              lit "extracted_text_" ++ unique_string ++ lit ".txt" in
            let output_file_path :=
              os_path_join output_dir output_file_name in
            append_file output_file_path content ;;
            ret (Some (output_file_name, output_file_path))
        | None => ret bound
        end
    | None => ret bound
    end
  else ret bound.

Fixpoint scan_records (warc_file_path output_dir : list N)
  (records : list ArcWarcRecord) (bound : option (list N * list N))
  : M (option (list N * list N)) :=
  match records with
  | [] => ret bound
  | record :: records' =>
      bound' <- scan_record warc_file_path output_dir bound record ;;
      scan_records warc_file_path output_dir records' bound'
  end.

(** The archive is read while the loop appends to output files; no
    output file is the archive itself (its name ends in [.txt]), so the
    records are those of the archive as it was when opened. *)
Definition convert_warc_to_text
  (warc_file_path output_dir csv_file_path : list N) : M unit :=
  start_time <- time_time ;;
  warc_file <- read_file warc_file_path ;;
  let '(records, damage) := ArchiveIterator warc_file in
  bound <- scan_records warc_file_path output_dir records None ;;
  match damage with Some e => raise e | None => ret tt end ;;
  end_time <- time_time ;;
  file_size_t <- os_path_getsize warc_file_path ;;
  let file_size := repr_round2 file_size_t (1024 * 1024) in
  match bound with
  | None => raise UnboundLocalError
  | Some (output_file_name, output_file_path) =>
      output_file_size_t <- os_path_getsize output_file_path ;;
      let output_file_size := repr_round2 output_file_size_t 1024 in
      append_file csv_file_path
        (csv_row [output_file_name; output_file_path; file_size;
                  output_file_size; repr_minutes start_time end_time])
  end.

(** [subprocess.check_call(['wget', url, '-O', local_filename, ...])] *)
Definition wget_argv (url local_filename : list N) : list (list N) :=
  [lit "wget"; url; lit "-O"; local_filename;
   lit "--tries"; str_of_nat MAX_RETRIES;
   lit "--wait"; str_of_nat RETRY_DELAY].

Definition check_call_wget (url local_filename : list N) : M unit :=
  fun w =>
    let argv := wget_argv url local_filename in
    let started := spawned (events w) in
    let w1 := log_event (Spawn argv) w in
    match wget started argv with
    | SpawnError => (Raise OSError, w1)
    | Exited returncode saved =>
        let w2 := match saved with
                  | Some data =>
                      set_files (<[local_filename := data]> (files w1)) w1
                  | None => w1
                  end in
        if (returncode =? 0)%Z then (Ok tt, w2)
        else (Raise (CalledProcessError returncode), w2)
    end.

(** The [for ... else] statement of lines 153-168 with [remaining]
    iterations of [range(MAX_RETRIES)] left.  It is left by [break]
    after a successful call ([true]); when the range is exhausted the
    [else] suite writes the row of the error log and the statement ends
    in [continue] ([false]). *)
Fixpoint download_with_retries (remaining : nat)
  (url local_filename errors_file_path : list N) : M bool :=
  match remaining with
  | O =>
      append_file errors_file_path (csv_row [local_filename]) ;;
      ret false
  | S remaining' =>
      fun w =>
        match check_call_wget url local_filename w with
        | (Ok _, w1) => (Ok true, w1)
        | (Raise (CalledProcessError _), w1) =>
            (time_sleep RETRY_DELAY ;;
             download_with_retries remaining' url local_filename
               errors_file_path) w1
        | (Raise e, w1) => (Raise e, w1)
        end
  end.

(** One iteration of the loop over the lines of the URL file,
    lines 149-174. *)
Definition process_line (csv_file_path errors_file_path line : list N)
  : M unit :=
  let url := strip line in
  let local_filename :=
    os_path_join OUTPUT_DIRECTORY (os_path_basename url) in
  downloaded <- download_with_retries MAX_RETRIES url local_filename
                  errors_file_path ;;
  if downloaded : bool then
    convert_warc_to_text local_filename EXTRACTED_TEXT_DIRECTORY
      csv_file_path ;;
    os_remove local_filename
  else ret tt.

Fixpoint process_lines (csv_file_path errors_file_path : list N)
  (lines : list (list N)) : M unit :=
  match lines with
  | [] => ret tt
  | line :: lines' =>
      process_line csv_file_path errors_file_path line ;;
      process_lines csv_file_path errors_file_path lines'
  end.

Definition csv_file_path : list N :=
  os_path_join EXTRACTED_TEXT_DIRECTORY (lit "extraction_info.csv").

Definition errors_file_path : list N :=
  os_path_join EXTRACTED_TEXT_DIRECTORY (lit "error_log_info.csv").

(** Lines 133-144: both logs are opened with mode ['w'] and get their
    header. *)
Definition init_logs : M unit :=
  write_file csv_file_path (csv_row metrics_fieldnames) ;;
  write_file errors_file_path (csv_row errors_fieldnames).

(** The URL file is read while the loop runs; nothing the loop writes
    is that file, so its lines are those it had when opened. *)
Definition main : M unit :=
  init_logs ;;
  url_file <- read_file URL_PATH ;;
  process_lines csv_file_path errors_file_path (readlines url_file).

End Program.

(** ** Notions used to state the properties *)

(** The strings of the text nodes that lie outside every style and
    script element, in document order: the specification's reading of
    "visible text", defined without removing anything from the tree. *)
Fixpoint content_strings_of (e : PageElement) : list (list N) :=
  match e with
  | Str cls s => stripped cls s
  | Tag name contents =>
      if existsb (eqb_str name) removed_tags then []
      else (fix go (l : list PageElement) : list (list N) :=
              match l with
              | [] => []
              | x :: l' => content_strings_of x ++ go l'
              end) contents
  end.

Fixpoint content_strings (l : list PageElement) : list (list N) :=
  match l with
  | [] => []
  | x :: l' => content_strings_of x ++ content_strings l'
  end.

(** [text_below path s e]: a string node with text [s] lies in [e]; the
    names of the elements from [e] down to the node's parent are [path]
    ([e] included when it is an element). *)
Inductive text_below : list (list N) -> list N -> PageElement -> Prop :=
  | text_here cls s : text_below [] s (Str cls s)
  | text_inside name contents x path s :
      x ∈ contents ->
      text_below path s x ->
      text_below (name :: path) s (Tag name contents).

(** No element named style or script at any depth. *)
#[local] Unset Elimination Schemes.
Inductive free_of_removed : PageElement -> Prop :=
  | free_str cls s : free_of_removed (Str cls s)
  | free_tag name contents :
      existsb (eqb_str name) removed_tags = false ->
      Forall free_of_removed contents ->
      free_of_removed (Tag name contents).
#[local] Set Elimination Schemes.

(** A record that is no response, or whose payload the filter rejects. *)
Definition rejected (BeautifulSoup : list N -> option (list PageElement))
  (record : ArcWarcRecord) : Prop :=
  rec_type record = lit "response" ->
  process_and_check_malayalam_text BeautifulSoup (content_stream record) 40
  = None.

(** Each of the next [n] calls of [wget] with these arguments, the
    first being call number [started], exits with a non-zero status. *)
Definition attempts_fail (wget : nat -> list (list N) -> spawn_result)
  (started n : nat) (argv : list (list N)) : Prop :=
  forall k, (k < n)%nat ->
    exists returncode saved,
      wget (started + k)%nat argv = Exited returncode saved
      /\ returncode <> 0%Z.

(** Does the text hold a character of the Malayalam block? *)
Definition has_malayalam (s : list N) : bool :=
  existsb in_malayalam_block s.

(** The world with other contents at the two log paths. *)
Definition with_stale_logs (metrics errors : list N) (w : world) : world :=
  set_files (<[csv_file_path := metrics]>
               (<[errors_file_path := errors]> (files w))) w.

(** What the scan makes of one record: the text it accepts, if any. *)
Definition accepted_text (BeautifulSoup : list N -> option (list PageElement))
  (record : ArcWarcRecord) : option (list N) :=
  if eqb_str (rec_type record) (lit "response") then
    process_and_check_malayalam_text BeautifulSoup (content_stream record) 40
  else None.

(** The texts the scan of [records] accepts, in the order of the
    records. *)
Definition accepted_texts (BeautifulSoup : list N -> option (list PageElement))
  (records : list ArcWarcRecord) : list (list N) :=
  omap (accepted_text BeautifulSoup) records.

(** The name and the path of the output file of a token. *)
Definition output_name_of (token : list N) : list N :=
  lit "extracted_text_" ++ token ++ lit ".txt".

Definition output_path_of (output_dir token : list N) : list N :=
  os_path_join output_dir (output_name_of token).

(** From [w] to [w'] the file at [path] kept what it held and at most
    grew at its end. *)
Definition file_extends (path : list N) (w w' : world) : Prop :=
  forall held, files w !! path = Some held ->
    exists more, files w' !! path = Some (held ++ more).

(** A statement whose effect, however it ends, relates the world it
    starts in to the world it leaves. *)
Definition keeps {A} (R : world -> world -> Prop) (m : M A) : Prop :=
  forall w, R w (snd (m w)).

(** A statement under which the file at [path] only grows. *)
Definition append_only {A} (path : list N) (m : M A) : Prop :=
  keeps (file_extends path) m.

(** A statement that starts no process and does not sleep. *)
Definition same_events (w w' : world) : Prop := events w' = events w.

Definition silent {A} (m : M A) : Prop := keeps same_events m.

(** A non-empty string of characters of the Malayalam block. *)
Definition run_of_block (r : list N) : Prop :=
  r <> [] /\ Forall (fun c => in_malayalam_block c = true) r.

(** A character of the Malayalam block, or the space that joins runs. *)
Definition malayalam_or_space (c : N) : Prop :=
  in_malayalam_block c = true \/ c = 32.

(** ** Test doubles

    Stand-ins for the libraries, used to run the program on concrete
    inputs. *)
Module Samples.

Definition ascii_digit (c : N) : bool := (48 <=? c) && (c <=? 57).

(** A parser that knows a few documents by heart and fails on every
    other input. *)
Definition malayalam_a : N := 0x0D05.

Definition page_a : list N :=
  lit "<html><body>" ++ replicate 50 malayalam_a ++ lit "</body></html>".

Definition page_b : list N := lit "<html><body>hello world</body></html>".

Definition page_c : list N :=
  lit "<p>" ++ [0x0D05; 0x0D06] ++ lit " x " ++ [0x0D07]
    ++ lit "<script>" ++ [0x0D08] ++ lit "</script></p>".

Definition known_pages : list (list N * list PageElement) :=
  [ (page_a,
     [Tag (lit "html")
        [Tag (lit "body") [Str NavigableString (replicate 50 malayalam_a)]]]);
    (page_b,
     [Tag (lit "html")
        [Tag (lit "body") [Str NavigableString (lit "hello world")]]]);
    (page_c,
     [Tag (lit "p")
        [Str NavigableString ([0x0D05; 0x0D06] ++ lit " x " ++ [0x0D07]);
         Tag (lit "script") [Str NavigableString [0x0D08]]]]);
    (lit "hello", [Str NavigableString (lit "hello")]) ].

Fixpoint lookup_page (table : list (list N * list PageElement))
  (html : list N) : option (list PageElement) :=
  match table with
  | [] => None
  | (page, soup) :: table' =>
      if eqb_str page html then Some soup else lookup_page table' html
  end.

Definition parser : list N -> option (list PageElement) :=
  lookup_page known_pages.

(** An archive reader for which the container is the payload of its
    single response record. *)
Definition one_response (archive : list N)
  : list ArcWarcRecord * option exn :=
  ([{| rec_type := lit "response"; content_stream := archive |}], None).

Definition wget_fails (started : nat) (argv : list (list N))
  : spawn_result := Exited 8 None.

Definition wget_serves (data : list N) (started : nat)
  (argv : list (list N)) : spawn_result := Exited 0 (Some data).

Definition size_on_disk (data : list N) : N := N.of_nat (length data).
Definition repr_round2 (n d : N) : list N := lit "0.0".
Definition repr_minutes (start_time end_time : nat) : list N := lit "0.0".

Definition empty_world : world :=
  {| files := ∅; events := []; ticks := O |}.

Definition url_a : list N :=
  lit "crawl-data/CC-MAIN-20231103000000-00001.warc.gz".
Definition local_a : list N :=
  lit "Extracted_files/CC-MAIN-20231103000000-00001.warc.gz".
Definition token_a : list N := lit "20231103000000-00001".

Definition world_with (path data : list N) : world :=
  {| files := {[ path := data ]}; events := []; ticks := O |}.

(** A path on which the pattern matches although [.warc.gz] is not
    its suffix. *)
Definition newline_path : list N :=
  lit "20231103000000-00001.warc.gz" ++ [10].


(** A server that answers at the third call. *)
Definition wget_serves_third (data : list N) (started : nat)
  (argv : list (list N)) : spawn_result :=
  if (started <? 2)%nat then Exited 8 None else Exited 0 (Some data).

(** Nineteen calls that exit with status 8, after which [wget] cannot be
    started any more. *)
Definition wget_lost (started : nat) (argv : list (list N))
  : spawn_result :=
  if (started <? 19)%nat then Exited 8 None else SpawnError.

(** No [wget] on the machine. *)
Definition wget_missing (started : nat) (argv : list (list N))
  : spawn_result := SpawnError.

(** A reader that yields the payload as one response record and then
    finds the container damaged. *)
Definition damaged_after_one (archive : list N)
  : list ArcWarcRecord * option exn :=
  ([{| rec_type := lit "response"; content_stream := archive |}],
   Some ArchiveLoadFailed).

End Samples.

(** * Properties *)

(** ** The scan computes the maximal runs *)

Lemma flush_nonempty cur : cur <> [] -> flush cur = [cur].
Proof. by destruct cur. Qed.

Lemma findall_from_gap gap s :
  Forall (fun c => in_malayalam_block c = false) gap ->
  findall_from [] (gap ++ s) = findall_from [] s.
Proof.
  induction 1 as [|c gap Hc _ IH]; [done|].
  simpl. by rewrite Hc.
Qed.

Lemma findall_from_run run : forall cur s,
  Forall (fun c => in_malayalam_block c = true) run ->
  findall_from cur (run ++ s) = findall_from (cur ++ run) s.
Proof.
  induction run as [|c run IH]; intros cur s Hrun.
  - by rewrite app_nil_r.
  - inversion_clear Hrun as [|? ? Hc Hrest]. simpl. rewrite Hc.
    rewrite IH by done. by rewrite <- app_assoc.
Qed.

Lemma findall_from_outside cur rest :
  cur <> [] -> starts_outside rest ->
  findall_from cur rest = cur :: findall_from [] rest.
Proof.
  intros Hcur Hrest. destruct rest as [|c rest]; simpl.
  - by rewrite flush_nonempty.
  - simpl in Hrest. rewrite Hrest. by rewrite flush_nonempty.
Qed.

(** A derivation of [maximal_runs] grows by one gap character in front. *)
Lemma maximal_runs_gap_cons c s rs :
  in_malayalam_block c = false ->
  maximal_runs s rs -> maximal_runs (c :: s) rs.
Proof.
  intros Hc Hruns. destruct Hruns as [gap Hgap|gap run rest rs Hgap Hne Hrun Hout Hrest].
  - apply runs_none. by constructor.
  - change (c :: gap ++ run ++ rest) with ((c :: gap) ++ run ++ rest).
    apply runs_more; try done. by constructor.
Qed.

Lemma findall_from_sound s : forall cur,
  Forall (fun c => in_malayalam_block c = true) cur ->
  maximal_runs (cur ++ s) (findall_from cur s).
Proof.
  induction s as [|c s IH]; intros cur Hcur.
  - rewrite app_nil_r. destruct cur as [|d cur]; simpl.
    + apply runs_none. constructor.
    + replace (d :: cur) with ([] ++ (d :: cur) ++ []) at 1
        by (by rewrite app_nil_r).
      apply runs_more; try done. apply runs_none. constructor.
  - simpl. destruct (in_malayalam_block c) eqn:Hc.
    + replace (cur ++ c :: s) with ((cur ++ [c]) ++ s)
        by (by rewrite <- app_assoc).
      apply IH. apply Forall_app. split; [done|]. by repeat constructor.
    + assert (Hrest : maximal_runs s (findall_from [] s))
        by (apply (IH []); constructor).
      destruct cur as [|d cur]; simpl.
      * by apply maximal_runs_gap_cons.
      * change (maximal_runs ([] ++ (d :: cur) ++ (c :: s))
                  ((d :: cur) :: findall_from [] s)).
        apply runs_more; try done. by apply maximal_runs_gap_cons.
Qed.

Lemma findall_malayalam_sound s : maximal_runs s (findall_malayalam s).
Proof. apply (findall_from_sound s []). constructor. Qed.

Lemma maximal_runs_unique s rs :
  maximal_runs s rs -> rs = findall_malayalam s.
Proof.
  unfold findall_malayalam.
  induction 1 as [gap Hgap|gap run rest rs Hgap Hne Hrun Hout Hrest IH].
  - rewrite <- (app_nil_r gap). by rewrite findall_from_gap.
  - rewrite findall_from_gap by done.
    rewrite findall_from_run by done. simpl.
    rewrite findall_from_outside by done. by rewrite IH.
Qed.

(** ** Lengths of joined strings *)

Lemma join_cons_cons sep p q rest :
  join sep (p :: q :: rest) = p ++ sep ++ join sep (q :: rest).
Proof. done. Qed.

Lemma length_join sep parts :
  parts <> [] ->
  length (join sep parts)
  = (sum_list (length <$> parts) + length sep * (length parts - 1))%nat.
Proof.
  induction parts as [|p [|q rest] IH]; intros Hne; [done| |].
  - simpl. lia.
  - rewrite join_cons_cons, !length_app, IH by done.
    simpl. lia.
Qed.

Lemma findall_from_no_block s :
  has_malayalam s = false -> findall_from [] s = [].
Proof.
  unfold has_malayalam. induction s as [|c s IH]; [done|].
  simpl. intros [Hc Hs]%orb_false_iff. rewrite Hc. simpl. by apply IH.
Qed.

(** ** The script filter *)

Lemma process_parsed BeautifulSoup html min soup :
  BeautifulSoup html = Some soup ->
  process_and_check_malayalam_text BeautifulSoup html min
  = filter_malayalam (visible_text soup) min.
Proof. intros Hsoup. unfold process_and_check_malayalam_text. by rewrite Hsoup. Qed.

Lemma process_unparsed BeautifulSoup html min :
  BeautifulSoup html = None ->
  process_and_check_malayalam_text BeautifulSoup html min = None.
Proof. intros Hsoup. unfold process_and_check_malayalam_text. by rewrite Hsoup. Qed.

(** C3, as the code has it: when the text the parser hands to the filter
    holds no character of U+0D00..U+0D7F and the threshold is at least 1,
    the function returns [None] (also when the parser raises). *)
Theorem no_malayalam_returns_none BeautifulSoup html min :
  (forall soup, BeautifulSoup html = Some soup ->
                has_malayalam (visible_text soup) = false) ->
  (1 <= min)%Z ->
  process_and_check_malayalam_text BeautifulSoup html min = None.
Proof.
  intros Hnone Hmin. destruct (BeautifulSoup html) as [soup|] eqn:Hsoup.
  - rewrite (process_parsed _ _ _ soup) by done.
    unfold filter_malayalam, findall_malayalam.
    rewrite findall_from_no_block by auto.
    change (length (join (lit " ") [])) with O.
    by rewrite (proj2 (Z.leb_gt min (Z.of_nat 0))) by lia.
  - by apply process_unparsed.
Qed.

Lemma no_malayalam_returns_none_witness :
  (forall soup, Samples.parser Samples.page_b = Some soup ->
                has_malayalam (visible_text soup) = false)
  /\ (1 <= 40)%Z
  /\ process_and_check_malayalam_text Samples.parser Samples.page_b 40 = None.
Proof.
  assert (H : forall soup, Samples.parser Samples.page_b = Some soup ->
                           has_malayalam (visible_text soup) = false).
  { intros soup Hsoup. vm_compute in Hsoup. injection Hsoup as <-.
    vm_compute. reflexivity. }
  split; [exact H|]. split; [lia|].
  apply (no_malayalam_returns_none Samples.parser Samples.page_b 40 H). lia.
Defined.

(** C3 as stated fails: with threshold 0 a page without any Malayalam
    character yields the empty string, not [None]. *)
Lemma zero_threshold_returns_empty_text :
  has_malayalam (lit "hello") = false
  /\ Samples.parser (lit "hello") = Some [Str NavigableString (lit "hello")]
  /\ process_and_check_malayalam_text Samples.parser (lit "hello") 0
     = Some [].
Proof. repeat split; vm_compute; reflexivity. Qed.

(** C4: when the document parses, the function returns the maximal runs
    of Malayalam characters of the text, in order and joined by single
    spaces, provided the joined string is at least [min] long; it
    returns [None] otherwise. *)
Theorem process_returns_joined_maximal_runs BeautifulSoup html min soup runs :
  BeautifulSoup html = Some soup ->
  maximal_runs (visible_text soup) runs ->
  process_and_check_malayalam_text BeautifulSoup html min
  = if (min <=? Z.of_nat (length (join (lit " ") runs)))%Z
    then Some (join (lit " ") runs) else None.
Proof.
  intros Hsoup Hruns. rewrite (process_parsed _ _ _ soup) by done.
  apply maximal_runs_unique in Hruns. by subst runs.
Qed.

Lemma process_returns_joined_maximal_runs_witness :
  let soup := [Tag (lit "p")
                 [Str NavigableString
                    ([0x0D05; 0x0D06] ++ lit " x " ++ [0x0D07]);
                  Tag (lit "script") [Str NavigableString [0x0D08]]]] in
  Samples.parser Samples.page_c = Some soup
  /\ maximal_runs (visible_text soup) [[0x0D05; 0x0D06]; [0x0D07]]
  /\ process_and_check_malayalam_text Samples.parser Samples.page_c 4
     = Some [0x0D05; 0x0D06; 32; 0x0D07].
Proof.
  intros soup.
  assert (Hsoup : Samples.parser Samples.page_c = Some soup)
    by (vm_compute; reflexivity).
  assert (Hruns : maximal_runs (visible_text soup)
                    [[0x0D05; 0x0D06]; [0x0D07]]).
  { change (maximal_runs ([] ++ [0x0D05; 0x0D06] ++ lit " x " ++ [0x0D07])
              [[0x0D05; 0x0D06]; [0x0D07]]).
    apply runs_more; [constructor|done|by repeat constructor|done|].
    change (maximal_runs (lit " x " ++ [0x0D07] ++ []) [[0x0D07]]).
    apply runs_more;
      [by repeat constructor|done|by repeat constructor|done|].
    apply runs_none. constructor. }
  split; [exact Hsoup|]. split; [exact Hruns|].
  apply (process_returns_joined_maximal_runs
           Samples.parser Samples.page_c 4 soup _ Hsoup Hruns).
Defined.

(** C10: the threshold is compared with the length of the joined
    string; for k >= 1 runs that is the sum of their lengths plus the
    k - 1 separating spaces. *)
Theorem threshold_counts_joining_spaces BeautifulSoup html min soup :
  BeautifulSoup html = Some soup ->
  findall_malayalam (visible_text soup) <> [] ->
  let runs := findall_malayalam (visible_text soup) in
  let counted := (sum_list (length <$> runs) + (length runs - 1))%nat in
  length (join (lit " ") runs) = counted
  /\ process_and_check_malayalam_text BeautifulSoup html min
     = if (min <=? Z.of_nat counted)%Z
       then Some (join (lit " ") runs) else None.
Proof.
  intros Hsoup Hne runs counted.
  assert (Hlen : length (join (lit " ") runs) = counted).
  { rewrite length_join by done. subst counted. simpl. lia. }
  split; [done|].
  rewrite (process_parsed _ _ _ soup) by done.
  unfold filter_malayalam. fold runs. by rewrite Hlen.
Qed.

Lemma threshold_counts_joining_spaces_witness :
  let soup := [Tag (lit "p")
                 [Str NavigableString
                    ([0x0D05; 0x0D06] ++ lit " x " ++ [0x0D07]);
                  Tag (lit "script") [Str NavigableString [0x0D08]]]] in
  Samples.parser Samples.page_c = Some soup
  /\ findall_malayalam (visible_text soup) <> []
  /\ sum_list (length <$> findall_malayalam (visible_text soup)) = 3%nat
  /\ process_and_check_malayalam_text Samples.parser Samples.page_c 4
     = Some [0x0D05; 0x0D06; 32; 0x0D07].
Proof.
  intros soup.
  assert (Hsoup : Samples.parser Samples.page_c = Some soup)
    by (vm_compute; reflexivity).
  assert (Hne : findall_malayalam (visible_text soup) <> [])
    by (vm_compute; discriminate).
  split; [exact Hsoup|]. split; [exact Hne|].
  split; [vm_compute; reflexivity|].
  exact (proj2 (threshold_counts_joining_spaces
                  Samples.parser Samples.page_c 4 soup Hsoup Hne)).
Defined.

(** ** The markup reducer *)

Lemma PageElement_ind (P : PageElement -> Prop) :
  (forall cls s, P (Str cls s)) ->
  (forall name contents, Forall P contents -> P (Tag name contents)) ->
  forall e, P e.
Proof.
  intros Hstr Htag. fix IH 1. intros [cls s|name contents].
  - apply Hstr.
  - apply Htag. induction contents as [|x contents IHc]; constructor.
    + apply IH.
    + apply IHc.
Qed.

Lemma decompose_in_tag name contents :
  decompose_in (Tag name contents) = Tag name (decompose_all contents).
Proof. reflexivity. Qed.

Lemma stripped_strings_of_tag name contents :
  stripped_strings_of (Tag name contents) = stripped_strings contents.
Proof. reflexivity. Qed.

Lemma content_strings_of_tag name contents :
  content_strings_of (Tag name contents)
  = if existsb (eqb_str name) removed_tags then []
    else content_strings contents.
Proof. reflexivity. Qed.

Lemma content_strings_of_removed e :
  is_removed_tag e = true -> content_strings_of e = [].
Proof.
  destruct e as [cls s|name contents]; [done|]. intros Hrem.
  change (existsb (eqb_str name) removed_tags = true) in Hrem.
  rewrite content_strings_of_tag. by rewrite Hrem.
Qed.

(** Extracting after the removal is extracting outside the removed
    elements. *)
Lemma stripped_strings_of_decompose_in e :
  is_removed_tag e = false ->
  stripped_strings_of (decompose_in e) = content_strings_of e.
Proof.
  induction e as [cls s|name contents IH] using PageElement_ind;
    intros Hkeep; [done|].
  change (existsb (eqb_str name) removed_tags = false) in Hkeep.
  rewrite decompose_in_tag, stripped_strings_of_tag, content_strings_of_tag.
  rewrite Hkeep. clear Hkeep.
  induction IH as [|x l Hx _ IHl]; [done|]. simpl.
  destruct (is_removed_tag x) eqn:Hrem.
  - by rewrite content_strings_of_removed.
  - simpl. by rewrite Hx, IHl.
Qed.

Lemma stripped_strings_decompose_all soup :
  stripped_strings (decompose_all soup) = content_strings soup.
Proof.
  induction soup as [|x l IH]; [done|]. simpl.
  destruct (is_removed_tag x) eqn:Hrem.
  - by rewrite content_strings_of_removed.
  - simpl. by rewrite stripped_strings_of_decompose_in, IH.
Qed.

Lemma decompose_in_free e :
  is_removed_tag e = false -> free_of_removed (decompose_in e).
Proof.
  induction e as [cls s|name contents IH] using PageElement_ind;
    intros Hkeep; [constructor|].
  rewrite decompose_in_tag. constructor; [done|]. clear Hkeep.
  induction IH as [|x l Hx _ IHl]; [constructor|]. cbn [decompose_all].
  destruct (is_removed_tag x) eqn:Hrem; [exact IHl|].
  constructor; [by apply Hx|exact IHl].
Qed.

Lemma decompose_all_free soup : Forall free_of_removed (decompose_all soup).
Proof.
  induction soup as [|x l IH]; [constructor|]. cbn [decompose_all].
  destruct (is_removed_tag x) eqn:Hrem; [exact IH|].
  constructor; [by apply decompose_in_free|exact IH].
Qed.

Lemma not_removed_name name :
  existsb (eqb_str name) removed_tags = false ->
  name <> lit "style" /\ name <> lit "script".
Proof.
  unfold removed_tags, eqb_str. simpl.
  repeat case_bool_decide; naive_solver.
Qed.

Lemma elem_of_stripped t cls s : t ∈ stripped cls s -> t = strip s.
Proof.
  unfold stripped. destruct (interesting cls); [|by intros ?%elem_of_nil].
  destruct (strip s) as [|c u]; [by intros ?%elem_of_nil|].
  by intros ->%list_elem_of_singleton.
Qed.

Lemma elem_of_content_strings t l :
  t ∈ content_strings l -> exists x, x ∈ l /\ t ∈ content_strings_of x.
Proof.
  induction l as [|x l IH]; simpl; [by intros ?%elem_of_nil|].
  intros [Hx|Hl]%elem_of_app.
  - exists x. split; [left|done].
  - destruct (IH Hl) as (y & Hy & Ht). exists y. split; [by right|done].
Qed.

(** Every extracted string is the stripped text of a node that has no
    style or script element above it. *)
Lemma content_strings_of_origin e : forall t,
  t ∈ content_strings_of e ->
  exists path s,
    text_below path s e /\ t = strip s
    /\ Forall (fun name => name <> lit "style" /\ name <> lit "script") path.
Proof.
  induction e as [cls s|name contents IH] using PageElement_ind; intros t Ht.
  - exists [], s. split; [constructor|]. split; [|constructor].
    by apply elem_of_stripped in Ht.
  - rewrite content_strings_of_tag in Ht.
    destruct (existsb (eqb_str name) removed_tags) eqn:Hname;
      [by apply elem_of_nil in Ht|].
    apply elem_of_content_strings in Ht as (x & Hx & Ht).
    rewrite Forall_forall in IH.
    destruct (IH x Hx t Ht) as (path & s & Hbelow & Hstrip & Hpath).
    exists (name :: path), s. split; [by econstructor|]. split; [done|].
    constructor; [by apply not_removed_name|done].
Qed.

(** C6: the text handed to the filter is made of the text nodes outside
    style and script elements only.  After the removal loop no such
    element is left at any depth; the strings extracted are those of the
    nodes outside these elements, in document order; and each of them
    is the stripped text of a node with no style or script ancestor. *)
Theorem style_and_script_text_never_reaches_filter
  BeautifulSoup html min soup :
  BeautifulSoup html = Some soup ->
  Forall free_of_removed (decompose_all soup)
  /\ stripped_strings (decompose_all soup) = content_strings soup
  /\ (forall t, t ∈ stripped_strings (decompose_all soup) ->
        exists x path s,
          x ∈ soup /\ text_below path s x /\ t = strip s
          /\ Forall (fun name => name <> lit "style" /\ name <> lit "script")
               path)
  /\ process_and_check_malayalam_text BeautifulSoup html min
     = filter_malayalam (join (lit " ") (content_strings soup)) min.
Proof.
  intros Hsoup. split; [apply decompose_all_free|].
  split; [apply stripped_strings_decompose_all|]. split.
  - intros t. rewrite stripped_strings_decompose_all.
    intros (x & Hx & Ht)%elem_of_content_strings.
    destruct (content_strings_of_origin x t Ht) as (path & s & H).
    by exists x, path, s.
  - rewrite (process_parsed _ _ _ soup) by done.
    unfold visible_text. by rewrite stripped_strings_decompose_all.
Qed.

Lemma style_and_script_text_never_reaches_filter_witness :
  let soup := [Tag (lit "p")
                 [Str NavigableString
                    ([0x0D05; 0x0D06] ++ lit " x " ++ [0x0D07]);
                  Tag (lit "script") [Str NavigableString [0x0D08]]]] in
  Samples.parser Samples.page_c = Some soup
  /\ content_strings soup = [[0x0D05; 0x0D06] ++ lit " x " ++ [0x0D07]]
  /\ process_and_check_malayalam_text Samples.parser Samples.page_c 1
     = Some [0x0D05; 0x0D06; 32; 0x0D07].
Proof.
  intros soup.
  assert (Hsoup : Samples.parser Samples.page_c = Some soup)
    by (vm_compute; reflexivity).
  split; [exact Hsoup|]. split; [vm_compute; reflexivity|].
  rewrite (proj2 (proj2 (proj2
    (style_and_script_text_never_reaches_filter
       Samples.parser Samples.page_c 1 soup Hsoup)))).
  vm_compute. reflexivity.
Defined.

(** ** The token pattern *)

Lemma at_dollar_spec s : at_dollar s = true -> s = [] \/ s = [10].
Proof.
  destruct s as [|c [|d s]]; simpl; [by left| |done].
  intros ->%N.eqb_eq. by right.
Qed.

Lemma digits_spec unicode_Nd n s :
  digits unicode_Nd n s = true ->
  length s = n /\ Forall (fun c => unicode_Nd c = true) s.
Proof.
  unfold digits. intros [Hlen Hall]%andb_true_iff.
  split; [by apply Nat.eqb_eq|]. rewrite Forall_forall.
  rewrite forallb_forall in Hall. intros c Hc. apply Hall.
  by apply list_elem_of_In.
Qed.

(** Where the pattern matches, the string reads: 14 digits, a dash,
    5 digits, [.warc.gz], and then nothing or one newline. *)
Lemma match_token_at_shape unicode_Nd s token :
  match_token_at unicode_Nd s = Some token ->
  exists stamp seq tail,
    s = token ++ lit ".warc.gz" ++ tail
    /\ (tail = [] \/ tail = [10])
    /\ token = stamp ++ lit "-" ++ seq
    /\ length stamp = 14%nat /\ length seq = 5%nat
    /\ Forall (fun c => unicode_Nd c = true) (stamp ++ seq).
Proof.
  unfold match_token_at.
  destruct (digits _ 14 _ && _ && _ && _ && _) eqn:Hmatch; [|done].
  intros [= <-].
  apply andb_true_iff in Hmatch as [Hmatch Hdollar].
  apply andb_true_iff in Hmatch as [Hmatch Hsuffix].
  apply andb_true_iff in Hmatch as [Hmatch Hseq].
  apply andb_true_iff in Hmatch as [Hstamp Hdash].
  apply digits_spec in Hstamp as [Hlen14 Hstamp].
  apply digits_spec in Hseq as [Hlen5 Hseq].
  apply bool_decide_eq_true in Hdash.
  apply bool_decide_eq_true in Hsuffix.
  apply at_dollar_spec in Hdollar.
  exists (take 14 s), (take 5 (drop 15 s)), (drop 8 (drop 20 s)).
  split; [|split; [done|]].
  - rewrite <- Hsuffix at 1.
    change (length (lit ".warc.gz")) with 8%nat.
    rewrite (take_drop 8 (drop 20 s)).
    replace (drop 20 s) with (drop 5 (drop 15 s)) by (by rewrite drop_drop).
    rewrite <- !app_assoc, (take_drop 5 (drop 15 s)).
    replace (drop 15 s) with (drop 1 (drop 14 s)) by (by rewrite drop_drop).
    by rewrite (take_drop 1 (drop 14 s)), take_drop.
  - rewrite Hdash. split; [done|]. split; [done|]. split; [done|].
    by apply Forall_app.
Qed.

Lemma re_search_token_shape unicode_Nd s : forall token,
  re_search_token unicode_Nd s = Some token ->
  exists before stamp seq tail,
    s = before ++ token ++ lit ".warc.gz" ++ tail
    /\ (tail = [] \/ tail = [10])
    /\ token = stamp ++ lit "-" ++ seq
    /\ length stamp = 14%nat /\ length seq = 5%nat
    /\ Forall (fun c => unicode_Nd c = true) (stamp ++ seq).
Proof.
  assert (Hhere : forall s token,
            match_token_at unicode_Nd s = Some token ->
            exists before stamp seq tail,
              s = before ++ token ++ lit ".warc.gz" ++ tail
              /\ (tail = [] \/ tail = [10])
              /\ token = stamp ++ lit "-" ++ seq
              /\ length stamp = 14%nat /\ length seq = 5%nat
              /\ Forall (fun c => unicode_Nd c = true) (stamp ++ seq)).
  { intros s' token Hat.
    destruct (match_token_at_shape _ _ _ Hat) as (stamp & seq & tail & H).
    by exists [], stamp, seq, tail. }
  induction s as [|c s IH]; intros token; cbn [re_search_token].
  - destruct (match_token_at unicode_Nd []) as [found|] eqn:Hat; [|done].
    intros [= <-]. by apply Hhere.
  - destruct (match_token_at unicode_Nd (c :: s)) as [found|] eqn:Hat.
    + intros [= <-]. by apply Hhere.
    + intros Hrest.
      destruct (IH _ Hrest) as (before & stamp & seq & tail & -> & H).
      by exists (c :: before), stamp, seq, tail.
Qed.

(** ** The paths the driver builds *)



Lemma basename_from_suffix p : forall cur,
  basename_from cur p `suffix_of` cur ++ p.
Proof.
  induction p as [|c p IH]; intros cur; simpl.
  - by rewrite app_nil_r.
  - destruct (c =? slash).
    + apply suffix_app_r, suffix_cons_r, (IH []).
    + replace (cur ++ c :: p) with ((cur ++ [c]) ++ p)
        by (by rewrite <- app_assoc).
      apply IH.
Qed.




(** ** Scanning one archive *)

Section ProgramProperties.

Context (BeautifulSoup : list N -> option (list PageElement))
        (ArchiveIterator : list N -> list ArcWarcRecord * option exn)
        (wget : nat -> list (list N) -> spawn_result)
        (unicode_Nd : N -> bool)
        (size_on_disk : list N -> N)
        (repr_round2 : N -> N -> list N)
        (repr_minutes : nat -> nat -> list N).

#[local] Abbreviation process := (process_and_check_malayalam_text BeautifulSoup).
#[local] Abbreviation scan_one := (scan_record BeautifulSoup unicode_Nd).
#[local] Abbreviation scan := (scan_records BeautifulSoup unicode_Nd).
#[local] Abbreviation convert :=
  (convert_warc_to_text BeautifulSoup ArchiveIterator unicode_Nd
     size_on_disk repr_round2 repr_minutes).
#[local] Abbreviation download := (download_with_retries wget).
#[local] Abbreviation one_line :=
  (process_line BeautifulSoup ArchiveIterator wget unicode_Nd
     size_on_disk repr_round2 repr_minutes).
#[local] Abbreviation all_lines :=
  (process_lines BeautifulSoup ArchiveIterator wget unicode_Nd
     size_on_disk repr_round2 repr_minutes).
#[local] Abbreviation run :=
  (main BeautifulSoup ArchiveIterator wget unicode_Nd
     size_on_disk repr_round2 repr_minutes).

Lemma scan_record_rejected warc_file_path output_dir bound record w :
  rejected BeautifulSoup record ->
  scan_one warc_file_path output_dir bound record w = (Ok bound, w).
Proof.
  intros Hrej. unfold scan_record, eqb_str. case_bool_decide; [|done].
  by rewrite Hrej.
Qed.


Lemma scan_records_idle warc_file_path output_dir records :
  Forall (fun record => forall bound w,
            scan_one warc_file_path output_dir bound record w
            = (Ok bound, w)) records ->
  forall bound w,
    scan warc_file_path output_dir records bound w = (Ok bound, w).
Proof.
  induction 1 as [|record records Hrecord _ IH]; intros bound w; [done|].
  cbn [scan_records]. unfold bind at 1. by rewrite Hrecord.
Qed.

(** When the loop over the records writes nothing, no name gets bound
    and the function ends in an exception, the files being as before. *)
Lemma convert_idle_scan warc_file_path output_dir csv archive records damage w :
  files w !! warc_file_path = Some archive ->
  ArchiveIterator archive = (records, damage) ->
  (forall bound w1,
     scan warc_file_path output_dir records bound w1 = (Ok bound, w1)) ->
  exists w',
    convert warc_file_path output_dir csv w
    = (Raise (default UnboundLocalError damage), w')
    /\ files w' = files w /\ events w' = events w.
Proof.
  intros Hfile Harchive Hscan. unfold convert_warc_to_text.
  unfold bind at 1. cbn [time_time].
  unfold bind at 1. unfold read_file at 1. cbn [files]. rewrite Hfile.
  rewrite Harchive. unfold bind at 1. rewrite Hscan.
  destruct damage as [e|]; unfold bind at 1; cbn [raise ret default].
  - by eexists.
  - unfold bind at 1. cbn [time_time].
    unfold bind at 1. unfold os_path_getsize at 1. cbn [files].
    rewrite Hfile. cbn [raise]. by eexists.
Qed.

(** C1: an archive none of whose response records is accepted leaves the
    files as they were: no row is added to the metrics log and no
    output file is created or changed.  The call does not return: it
    raises, the output path being unbound (or with the reader's own
    exception when the container is damaged). *)
Theorem no_accepted_text_no_metrics_row
  warc_file_path output_dir csv archive records damage w :
  files w !! warc_file_path = Some archive ->
  ArchiveIterator archive = (records, damage) ->
  Forall (rejected BeautifulSoup) records ->
  exists w',
    convert warc_file_path output_dir csv w
    = (Raise (default UnboundLocalError damage), w')
    /\ files w' = files w.
Proof.
  intros Hfile Harchive Hrej.
  destruct (convert_idle_scan warc_file_path output_dir csv archive records
              damage w Hfile Harchive) as (w' & Hrun & Hfiles & _).
  - apply scan_records_idle. eapply Forall_impl; [exact Hrej|].
    intros record Hrecord bound w1. by apply scan_record_rejected.
  - by exists w'.
Qed.


(** ** Retrieval *)

Lemma spawned_app evs evs' :
  spawned (evs ++ evs') = (spawned evs + spawned evs')%nat.
Proof.
  induction evs as [|[argv|seconds] evs IH]; simpl; [done| |done].
  by rewrite IH.
Qed.

(** One call of [wget]: it is recorded, and the only file it can touch
    is the one named after [-O]. *)
Lemma check_call_wget_effect url local_filename w :
  exists w1,
    snd (check_call_wget wget url local_filename w) = w1
    /\ events w1 = events w ++ [Spawn (wget_argv url local_filename)]
    /\ (forall p, p <> local_filename -> files w1 !! p = files w !! p).
Proof.
  eexists. split; [done|]. unfold check_call_wget.
  destruct (wget _ _) as [|returncode [data|]];
    [|destruct (returncode =? 0)%Z..]; cbn; split; try done.
  all: intros p Hp; by rewrite lookup_insert_ne.
Qed.

Lemma check_call_wget_failed url local_filename w returncode saved :
  wget (spawned (events w)) (wget_argv url local_filename)
  = Exited returncode saved ->
  returncode <> 0%Z ->
  fst (check_call_wget wget url local_filename w)
  = Raise (CalledProcessError returncode).
Proof.
  intros Hwget Hcode. unfold check_call_wget. rewrite Hwget.
  by rewrite (proj2 (Z.eqb_neq returncode 0)).
Qed.

Lemma download_all_fail url local_filename errors_path n : forall w,
  attempts_fail wget (spawned (events w)) n (wget_argv url local_filename) ->
  exists w',
    download n url local_filename errors_path w = (Ok false, w')
    /\ events w'
       = events w ++ concat (replicate n [Spawn (wget_argv url local_filename);
                                          Sleep RETRY_DELAY])
    /\ (forall p, p <> local_filename -> p <> errors_path ->
                  files w' !! p = files w !! p)
    /\ (local_filename <> errors_path ->
        files w' !! errors_path
        = Some (default [] (files w !! errors_path)
                  ++ csv_row [local_filename]))
    /\ exists before,
         files w' !! errors_path = Some (before ++ csv_row [local_filename]).
Proof.
  induction n as [|n IH]; intros w Hfail.
  - eexists. split; [reflexivity|]. cbn. rewrite app_nil_r.
    split; [done|]. split; [|split].
    + intros p _ Hp. by rewrite lookup_insert_ne.
    + intros _. by rewrite lookup_insert_eq.
    + eexists. by rewrite lookup_insert_eq.
  - destruct (Hfail O) as (returncode & saved & Hwget & Hcode); [lia|].
    rewrite Nat.add_0_r in Hwget.
    pose proof (check_call_wget_failed url local_filename w _ _ Hwget Hcode)
      as Hraise.
    destruct (check_call_wget_effect url local_filename w)
      as (w1 & Hw1 & Hevents1 & Hfiles1).
    destruct (IH (log_event (Sleep RETRY_DELAY) w1))
      as (w' & Hrun & Hevents & Hfiles & Hlog & Hlast).
    { intros k Hk. cbn [log_event events].
      rewrite Hevents1, !spawned_app. cbn [spawned].
      destruct (Hfail (S k)) as (code & data & Hcall & Hne); [lia|].
      exists code, data. split; [|done]. rewrite <- Hcall. f_equal. lia. }
    exists w'. split; [|split; [|split; [|split]]].
    + cbn [download_with_retries].
      destruct (check_call_wget wget url local_filename w) as [r w1'].
      simpl in Hraise, Hw1. subst r w1'. exact Hrun.
    + rewrite Hevents. cbn [log_event events]. rewrite Hevents1.
      cbn [replicate concat]. by rewrite <- !app_assoc.
    + intros p Hp Hp'. rewrite Hfiles by done. by apply Hfiles1.
    + intros Hne. rewrite Hlog by done. cbn [log_event files].
      by rewrite Hfiles1.
    + exact Hlast.
Qed.

Lemma download_bound url local_filename errors_path n : forall w,
  (spawned (events (snd (download n url local_filename errors_path w)))
   <= spawned (events w) + n)%nat.
Proof.
  induction n as [|n IH]; intros w; [cbn; lia|].
  cbn [download_with_retries].
  destruct (check_call_wget_effect url local_filename w)
    as (w1 & Hw1 & Hevents1 & _).
  destruct (check_call_wget wget url local_filename w) as [r w1'].
  simpl in Hw1. subst w1'.
  assert (Hone : spawned (events w1) = S (spawned (events w)))
    by (rewrite Hevents1, spawned_app; simpl; lia).
  destruct r as [[]|[]]; cbn [snd]; try lia.
  unfold bind at 1. cbn [time_sleep].
  etrans; [apply IH|]. cbn [log_event events].
  rewrite spawned_app, Hone. simpl. lia.
Qed.

(** C2, as the code has it: the retry statement entered with [n]
    iterations left starts the [wget] process at most [n] times (what
    a process does with the [--tries] it is given is its own affair);
    when each of these calls exits with a non-zero status, every call
    is followed by a sleep of RETRY_DELAY seconds, and the statement
    ends in its [else] suite, which appends the row holding the
    destination path to the error log. *)
Theorem retrieval_attempts_bounded url local_filename errors_path n w :
  (spawned (events (snd (download n url local_filename errors_path w)))
   <= spawned (events w) + n)%nat
  /\ (attempts_fail wget (spawned (events w)) n
        (wget_argv url local_filename) ->
      exists w',
        download n url local_filename errors_path w = (Ok false, w')
        /\ events w'
           = events w
               ++ concat (replicate n [Spawn (wget_argv url local_filename);
                                       Sleep RETRY_DELAY])
        /\ exists before,
             files w' !! errors_path
             = Some (before ++ csv_row [local_filename])).
Proof.
  split; [apply download_bound|]. intros Hfail.
  destruct (download_all_fail url local_filename errors_path n w Hfail)
    as (w' & Hrun & Hevents & _ & _ & Hlast).
  by exists w'.
Qed.

(** ** The driver *)

(** A downloaded archive is never stored in the directory of the logs
    and output files. *)
Lemma local_filename_outside_output base :
  ~ EXTRACTED_TEXT_DIRECTORY `prefix_of` os_path_join OUTPUT_DIRECTORY base.
Proof.
  intros Hprefix. unfold os_path_join in Hprefix.
  destruct base as [|c base].
  - vm_compute in Hprefix. destruct Hprefix as [rest Hrest].
    discriminate Hrest.
  - destruct (c =? slash) eqn:Hc.
    + apply N.eqb_eq in Hc. subst c.
      destruct Hprefix as [rest Hrest]. discriminate Hrest.
    + change (last OUTPUT_DIRECTORY) with (Some slash) in Hprefix.
      cbv beta iota in Hprefix. rewrite N.eqb_refl in Hprefix.
      destruct Hprefix as [rest Hrest]. discriminate Hrest.
Qed.

Lemma csv_file_path_in_output :
  EXTRACTED_TEXT_DIRECTORY `prefix_of` csv_file_path.
Proof. by exists (lit "extraction_info.csv"). Qed.

Lemma errors_file_path_in_output :
  EXTRACTED_TEXT_DIRECTORY `prefix_of` errors_file_path.
Proof. by exists (lit "error_log_info.csv"). Qed.

(** C7, as the code has it: when every attempt to retrieve an entry
    fails by [wget] exiting with a non-zero status, the entry costs one
    row of the error log, holding the local path the archive was to be
    saved under; the metrics log and every other file of the output
    directory stay as they were, and the run goes on with the next
    entry. *)
Theorem failed_retrieval_logged_and_skipped line rest w :
  let url := strip line in
  let local_filename :=
    os_path_join OUTPUT_DIRECTORY (os_path_basename url) in
  attempts_fail wget (spawned (events w)) MAX_RETRIES
    (wget_argv url local_filename) ->
  exists w',
    one_line csv_file_path errors_file_path line w = (Ok tt, w')
    /\ files w' !! errors_file_path
       = Some (default [] (files w !! errors_file_path)
                 ++ csv_row [local_filename])
    /\ files w' !! csv_file_path = files w !! csv_file_path
    /\ (forall p, EXTRACTED_TEXT_DIRECTORY `prefix_of` p ->
                  p <> errors_file_path ->
                  files w' !! p = files w !! p)
    /\ all_lines csv_file_path errors_file_path (line :: rest) w
       = all_lines csv_file_path errors_file_path rest w'.
Proof.
  intros url local_filename Hfail.
  destruct (download_all_fail url local_filename errors_file_path
              MAX_RETRIES w Hfail)
    as (w' & Hrun & _ & Hfiles & Hlog & _).
  assert (Houtside : forall p, EXTRACTED_TEXT_DIRECTORY `prefix_of` p ->
                               p <> local_filename).
  { intros p Hp ->. by apply (local_filename_outside_output
                                (os_path_basename url)). }
  assert (Hline : one_line csv_file_path errors_file_path line w
                  = (Ok tt, w')).
  { unfold process_line. fold url. fold local_filename.
    unfold bind at 1. by rewrite Hrun. }
  exists w'. split; [exact Hline|]. split; [|split; [|split]].
  - apply Hlog. intros Heq. symmetry in Heq. revert Heq.
    apply Houtside, errors_file_path_in_output.
  - apply Hfiles; [apply Houtside, csv_file_path_in_output|].
    vm_compute. discriminate.
  - intros p Hp Hne. apply Hfiles; [by apply Houtside|done].
  - cbn [process_lines]. unfold bind at 1. by rewrite Hline.
Qed.

(** C8: a run begins by opening both logs for writing: whatever they
    held, each now holds its header row and nothing else, and no other
    file is touched; the entries are processed after that.  What the
    logs held before the run has no influence on it. *)
Theorem logs_reset_at_start w :
  exists w0,
    init_logs w = (Ok tt, w0)
    /\ files w0 !! csv_file_path = Some (csv_row metrics_fieldnames)
    /\ files w0 !! errors_file_path = Some (csv_row errors_fieldnames)
    /\ (forall p, p <> csv_file_path -> p <> errors_file_path ->
                  files w0 !! p = files w !! p)
    /\ events w0 = events w
    /\ run w
       = (url_file <- read_file URL_PATH ;;
          all_lines csv_file_path errors_file_path (readlines url_file))%py
           w0
    /\ forall metrics errors, run (with_stale_logs metrics errors w) = run w.
Proof.
  eexists. split; [reflexivity|]. cbn [set_files files events].
  split; [|split; [|split; [|split; [|split]]]].
  - rewrite lookup_insert_ne by (vm_compute; discriminate).
    by rewrite lookup_insert_eq.
  - by rewrite lookup_insert_eq.
  - intros p Hcsv Herr. by rewrite !lookup_insert_ne.
  - done.
  - reflexivity.
  - intros metrics errors. unfold main. unfold bind at 1 3.
    unfold init_logs, bind, write_file, with_stale_logs, set_files.
    cbn [files events ticks].
    replace (<[errors_file_path:=csv_row errors_fieldnames]>
               (<[csv_file_path:=csv_row metrics_fieldnames]>
                  (<[csv_file_path:=metrics]>
                     (<[errors_file_path:=errors]> (files w)))))
      with (<[errors_file_path:=csv_row errors_fieldnames]>
              (<[csv_file_path:=csv_row metrics_fieldnames]> (files w)));
      [done|].
    apply map_eq. intros p.
    destruct (decide (p = errors_file_path)) as [->|Herr];
      [by rewrite !lookup_insert_eq|].
    rewrite !(lookup_insert_ne _ errors_file_path) by done.
    destruct (decide (p = csv_file_path)) as [->|Hcsv];
      [by rewrite !lookup_insert_eq|].
    rewrite !(lookup_insert_ne _ csv_file_path) by done.
    by rewrite lookup_insert_ne.
Qed.


End ProgramProperties.

(** ** The properties on concrete runs *)

Lemma no_accepted_text_no_metrics_row_witness :
  let w := Samples.world_with Samples.local_a Samples.page_b in
  let records := [{| rec_type := lit "response";
                     content_stream := Samples.page_b |}] in
  files w !! Samples.local_a = Some Samples.page_b
  /\ Samples.one_response Samples.page_b = (records, None)
  /\ Forall (rejected Samples.parser) records
  /\ exists w',
       convert_warc_to_text Samples.parser Samples.one_response
         Samples.ascii_digit Samples.size_on_disk Samples.repr_round2
         Samples.repr_minutes Samples.local_a EXTRACTED_TEXT_DIRECTORY
         csv_file_path w
       = (Raise UnboundLocalError, w')
       /\ files w' = files w.
Proof.
  intros w records.
  assert (Hfile : files w !! Samples.local_a = Some Samples.page_b)
    by (vm_compute; reflexivity).
  assert (Harchive : Samples.one_response Samples.page_b = (records, None))
    by reflexivity.
  assert (Hrej : Forall (rejected Samples.parser) records).
  { constructor; [|constructor]. intros _. vm_compute. reflexivity. }
  split; [exact Hfile|]. split; [exact Harchive|]. split; [exact Hrej|].
  exact (no_accepted_text_no_metrics_row Samples.parser Samples.one_response
           Samples.ascii_digit Samples.size_on_disk Samples.repr_round2
           Samples.repr_minutes Samples.local_a EXTRACTED_TEXT_DIRECTORY
           csv_file_path Samples.page_b records None w Hfile Harchive Hrej).
Defined.


(** The [$] of the pattern also matches just before a newline that ends
    the string.  No path the driver builds ends in a newline
    ([local_filename_no_trailing_newline]). *)
Lemma token_matched_before_trailing_newline :
  let record := {| rec_type := lit "response";
                   content_stream := Samples.page_a |} in
  let dest := lit "Extracted Texts/extracted_text_20231103000000-00001.txt" in
  Samples.newline_path = lit "20231103000000-00001.warc.gz" ++ [10]
  /\ re_search_token Samples.ascii_digit Samples.newline_path
     = Some (lit "20231103000000-00001")
  /\ ~ lit ".warc.gz" `suffix_of` Samples.newline_path
  /\ files (snd (scan_record Samples.parser Samples.ascii_digit
                   Samples.newline_path EXTRACTED_TEXT_DIRECTORY None record
                   Samples.empty_world))
       !! dest
     = Some (replicate 50 Samples.malayalam_a).
Proof.
  intros record dest. split; [reflexivity|].
  split; [vm_compute; reflexivity|]. split.
  - intros [before Hbefore]. apply (f_equal last) in Hbefore.
    rewrite last_app in Hbefore. vm_compute in Hbefore. discriminate.
  - vm_compute. reflexivity.
Qed.

Lemma retrieval_attempts_bounded_witness :
  let argv := wget_argv Samples.url_a Samples.local_a in
  attempts_fail Samples.wget_fails 0 3 argv
  /\ exists w',
       download_with_retries Samples.wget_fails 3 Samples.url_a
         Samples.local_a errors_file_path Samples.empty_world
       = (Ok false, w')
       /\ events w'
          = [Spawn argv; Sleep 10; Spawn argv; Sleep 10; Spawn argv; Sleep 10]
       /\ exists before,
            files w' !! errors_file_path
            = Some (before ++ csv_row [Samples.local_a]).
Proof.
  intros argv.
  assert (Hfail : attempts_fail Samples.wget_fails 0 3 argv).
  { intros k _. exists 8%Z, None. split; [reflexivity|lia]. }
  split; [exact Hfail|].
  exact (proj2 (retrieval_attempts_bounded Samples.wget_fails Samples.url_a
                  Samples.local_a errors_file_path 3 Samples.empty_world)
           Hfail).
Defined.

(** C2 as stated fails.  Every call of the twenty that are made fails,
    the last one because [wget] cannot be started: the statement then
    reports no retrieval failure, it raises, and the error log has no
    row.  Each of the processes is itself started with [--tries 20], so
    what the statement bounds is the number of processes. *)
Lemma unstartable_wget_reports_no_failure :
  let argv := wget_argv Samples.url_a Samples.local_a in
  let w := Samples.world_with errors_file_path (csv_row errors_fieldnames) in
  let outcome :=
    download_with_retries Samples.wget_lost MAX_RETRIES Samples.url_a
      Samples.local_a errors_file_path w in
  argv = [lit "wget"; Samples.url_a; lit "-O"; Samples.local_a;
          lit "--tries"; lit "20"; lit "--wait"; lit "10"]
  /\ (forall k, (k < 19)%nat -> Samples.wget_lost k argv = Exited 8 None)
  /\ Samples.wget_lost 19 argv = SpawnError
  /\ fst outcome = Raise OSError
  /\ events (snd outcome)
     = concat (replicate 19 [Spawn argv; Sleep 10]) ++ [Spawn argv]
  /\ spawned (events (snd outcome)) = 20%nat
  /\ files (snd outcome) !! errors_file_path
     = Some (csv_row errors_fieldnames).
Proof.
  intros argv w outcome. split; [reflexivity|]. split.
  { intros k Hk. unfold Samples.wget_lost.
    by rewrite (proj2 (Nat.ltb_lt k 19)). }
  repeat split; vm_compute; reflexivity.
Qed.

Lemma failed_retrieval_logged_and_skipped_witness :
  let line := Samples.url_a ++ [10] in
  let w := Samples.world_with errors_file_path (csv_row errors_fieldnames) in
  attempts_fail Samples.wget_fails 0 MAX_RETRIES
    (wget_argv Samples.url_a Samples.local_a)
  /\ exists w',
       process_line Samples.parser Samples.one_response Samples.wget_fails
         Samples.ascii_digit Samples.size_on_disk Samples.repr_round2
         Samples.repr_minutes csv_file_path errors_file_path line w
       = (Ok tt, w')
       /\ files w' !! errors_file_path
          = Some (csv_row errors_fieldnames ++ csv_row [Samples.local_a])
       /\ files w' !! csv_file_path = None.
Proof.
  intros line w.
  assert (Hfail : attempts_fail Samples.wget_fails 0 MAX_RETRIES
                    (wget_argv Samples.url_a Samples.local_a)).
  { intros k _. exists 8%Z, None. split; [reflexivity|lia]. }
  split; [exact Hfail|].
  destruct (failed_retrieval_logged_and_skipped Samples.parser
              Samples.one_response Samples.wget_fails Samples.ascii_digit
              Samples.size_on_disk Samples.repr_round2 Samples.repr_minutes
              line [] w Hfail) as (w' & Hline & Hlog & Hcsv & _).
  exists w'. split; [exact Hline|]. split; [exact Hlog|]. exact Hcsv.
Defined.

(** C7 as stated fails.  The retrieval of the first entry fails on
    every attempt, the last time because [wget] cannot be started: no
    row is written to the error log, and the run does not go on to the
    second entry but ends with the exception. *)
Lemma unstartable_wget_ends_run_without_error_row :
  let line := Samples.url_a ++ [10] in
  let argv := wget_argv Samples.url_a Samples.local_a in
  let w := Samples.world_with errors_file_path (csv_row errors_fieldnames) in
  let outcome :=
    process_lines Samples.parser Samples.one_response Samples.wget_lost
      Samples.ascii_digit Samples.size_on_disk Samples.repr_round2
      Samples.repr_minutes csv_file_path errors_file_path [line; line] w in
  (forall k, (k < 19)%nat -> Samples.wget_lost k argv = Exited 8 None)
  /\ Samples.wget_lost 19 argv = SpawnError
  /\ fst outcome = Raise OSError
  /\ spawned (events (snd outcome)) = 20%nat
  /\ files (snd outcome) !! errors_file_path
     = Some (csv_row errors_fieldnames)
  /\ files (snd outcome) !! csv_file_path = None.
Proof.
  intros line argv w outcome. split.
  { intros k Hk. unfold Samples.wget_lost.
    by rewrite (proj2 (Nat.ltb_lt k 19)). }
  repeat split; vm_compute; reflexivity.
Qed.

Lemma logs_reset_at_start_witness :
  let w := Samples.world_with csv_file_path (lit "rows of an earlier run") in
  exists w0,
    init_logs w = (Ok tt, w0)
    /\ files w0 !! csv_file_path = Some (lit "File Name,File Path,Input File Size (MB),Output File Size (KB),Time Taken (Minutes)" ++ [13; 10])
    /\ files w0 !! errors_file_path = Some (lit "File Path" ++ [13; 10]).
Proof.
  intros w.
  destruct (logs_reset_at_start Samples.parser Samples.one_response
              Samples.wget_fails Samples.ascii_digit Samples.size_on_disk
              Samples.repr_round2 Samples.repr_minutes w)
    as (w0 & Hinit & Hcsv & Herr & _).
  exists w0. split; [exact Hinit|]. split; [exact Hcsv|exact Herr].
Defined.


(** A whole run on one entry whose archive holds a page with fifty
    Malayalam letters: the text is stored under the token of the
    archive, one row follows the header of the metrics log, the error
    log keeps its header alone and the archive is removed. *)
Example run_extracts_one_page :
  let w := Samples.world_with URL_PATH (Samples.url_a ++ [10]) in
  let name := lit "extracted_text_20231103000000-00001.txt" in
  let dest := lit "Extracted Texts/extracted_text_20231103000000-00001.txt" in
  exists w',
    main Samples.parser Samples.one_response
      (Samples.wget_serves Samples.page_a) Samples.ascii_digit
      Samples.size_on_disk Samples.repr_round2 Samples.repr_minutes w
    = (Ok tt, w')
    /\ files w' !! dest = Some (replicate 50 Samples.malayalam_a)
    /\ files w' !! csv_file_path
       = Some (csv_row metrics_fieldnames
                 ++ csv_row [name; dest; lit "0.0"; lit "0.0"; lit "0.0"])
    /\ files w' !! errors_file_path = Some (csv_row errors_fieldnames)
    /\ files w' !! Samples.local_a = None.
Proof.
  intros w name dest. eexists. split; [vm_compute; reflexivity|].
  repeat split; vm_compute; reflexivity.
Qed.

(** * Further properties of the program *)

(** ** What the filter returns *)

Lemma maximal_runs_of_block s rs :
  maximal_runs s rs -> Forall run_of_block rs.
Proof.
  induction 1 as [gap Hgap|gap run rest rs Hgap Hne Hrun Hout Hrest IH].
  - constructor.
  - constructor; [|exact IH]. by split.
Qed.

Lemma findall_runs_of_block s : Forall run_of_block (findall_malayalam s).
Proof. eapply maximal_runs_of_block, findall_malayalam_sound. Qed.

(** Scanning the joined runs gives the runs back. *)
Lemma findall_join rs :
  Forall run_of_block rs -> findall_malayalam (join (lit " ") rs) = rs.
Proof.
  unfold findall_malayalam.
  induction 1 as [|r rs [Hne Hrun] Hrs IH]; [done|].
  destruct rs as [|q rs].
  - cbn [join]. rewrite <- (app_nil_r r) at 1.
    rewrite findall_from_run by done. cbn. by rewrite flush_nonempty.
  - rewrite join_cons_cons, findall_from_run by done.
    change (lit " ") with [32]. cbn [app].
    rewrite findall_from_outside by done. f_equal.
    change (32 :: join [32] (q :: rs)) with ([32] ++ join [32] (q :: rs)).
    rewrite findall_from_gap by (by repeat constructor). exact IH.
Qed.

Lemma filter_outside_block gap :
  Forall (fun c => in_malayalam_block c = false) gap ->
  List.filter in_malayalam_block gap = [].
Proof. induction 1 as [|c gap Hc _ IH]; [done|]. simpl. by rewrite Hc. Qed.

Lemma filter_inside_block run :
  Forall (fun c => in_malayalam_block c = true) run ->
  List.filter in_malayalam_block run = run.
Proof.
  induction 1 as [|c run Hc _ IH]; [done|]. simpl. by rewrite Hc, IH.
Qed.

Lemma maximal_runs_filter s rs :
  maximal_runs s rs -> List.filter in_malayalam_block s = concat rs.
Proof.
  induction 1 as [gap Hgap|gap run rest rs Hgap Hne Hrun Hout Hrest IH].
  - by apply filter_outside_block.
  - rewrite !List.filter_app, filter_outside_block, filter_inside_block
      by done.
    simpl. by rewrite IH.
Qed.

Lemma join_filter rs :
  Forall run_of_block rs ->
  List.filter in_malayalam_block (join (lit " ") rs) = concat rs.
Proof.
  induction 1 as [|r rs [Hne Hrun] Hrs IH]; [done|].
  destruct rs as [|q rs].
  - cbn [join concat]. rewrite app_nil_r. by apply filter_inside_block.
  - rewrite join_cons_cons, !List.filter_app, filter_inside_block by done.
    rewrite IH. reflexivity.
Qed.

Lemma join_alphabet rs :
  Forall run_of_block rs -> Forall malayalam_or_space (join (lit " ") rs).
Proof.
  induction 1 as [|r rs [Hne Hrun] Hrs IH]; [constructor|].
  assert (Hr : Forall malayalam_or_space r)
    by (eapply Forall_impl; [exact Hrun|]; intros c Hc; by left).
  destruct rs as [|q rs]; [done|].
  rewrite join_cons_cons. apply Forall_app. split; [done|].
  apply Forall_app. split; [|done].
  change (lit " ") with [32]. constructor; [by right|constructor].
Qed.

Lemma filter_malayalam_some text min t :
  filter_malayalam text min = Some t ->
  t = join (lit " ") (findall_malayalam text) /\ (min <= Z.of_nat (length t))%Z.
Proof.
  unfold filter_malayalam.
  destruct (Z.leb_spec min
              (Z.of_nat (length (join (lit " ") (findall_malayalam text)))));
    [|done].
  by intros [= <-].
Qed.

Lemma process_some BeautifulSoup html min t :
  process_and_check_malayalam_text BeautifulSoup html min = Some t ->
  exists soup,
    BeautifulSoup html = Some soup
    /\ t = join (lit " ") (findall_malayalam (visible_text soup))
    /\ (min <= Z.of_nat (length t))%Z.
Proof.
  unfold process_and_check_malayalam_text.
  destruct (BeautifulSoup html) as [soup|]; [|done].
  intros Ht%filter_malayalam_some. by exists soup.
Qed.

(** X1: a returned text is made of characters of the Malayalam block
    and of spaces only, and is at least as long as the threshold. *)
Theorem returned_text_is_malayalam_and_spaces BeautifulSoup html min t :
  process_and_check_malayalam_text BeautifulSoup html min = Some t ->
  Forall malayalam_or_space t /\ (min <= Z.of_nat (length t))%Z.
Proof.
  intros (soup & _ & -> & Hlen)%process_some. split; [|done].
  apply join_alphabet, findall_runs_of_block.
Qed.

Lemma returned_text_is_malayalam_and_spaces_witness :
  process_and_check_malayalam_text Samples.parser Samples.page_c 4
  = Some [0x0D05; 0x0D06; 32; 0x0D07]
  /\ Forall malayalam_or_space [0x0D05; 0x0D06; 32; 0x0D07].
Proof.
  assert (H : process_and_check_malayalam_text Samples.parser Samples.page_c 4
              = Some [0x0D05; 0x0D06; 32; 0x0D07])
    by (vm_compute; reflexivity).
  split; [exact H|].
  exact (proj1 (returned_text_is_malayalam_and_spaces
                  Samples.parser Samples.page_c 4 _ H)).
Defined.

(** X2: filtering a returned text again changes nothing: it is accepted
    as it is, under the same threshold and under every smaller one. *)
Theorem filter_stable_on_returned_text BeautifulSoup html min min' t :
  process_and_check_malayalam_text BeautifulSoup html min = Some t ->
  (min' <= min)%Z ->
  filter_malayalam t min' = Some t.
Proof.
  intros (soup & _ & -> & Hlen)%process_some Hmin.
  unfold filter_malayalam.
  rewrite findall_join by apply findall_runs_of_block.
  by rewrite (proj2 (Z.leb_le _ _)) by lia.
Qed.

Lemma filter_stable_on_returned_text_witness :
  process_and_check_malayalam_text Samples.parser Samples.page_c 4
  = Some [0x0D05; 0x0D06; 32; 0x0D07]
  /\ (3 <= 4)%Z
  /\ filter_malayalam [0x0D05; 0x0D06; 32; 0x0D07] 3
     = Some [0x0D05; 0x0D06; 32; 0x0D07].
Proof.
  assert (H : process_and_check_malayalam_text Samples.parser Samples.page_c 4
              = Some [0x0D05; 0x0D06; 32; 0x0D07])
    by (vm_compute; reflexivity).
  split; [exact H|]. split; [lia|].
  apply (filter_stable_on_returned_text Samples.parser Samples.page_c 4 3 _ H).
  lia.
Defined.

(** X3: no Malayalam character is lost or added: a returned text,
    its spaces left out, consists of the Malayalam characters of the
    text handed to the filter, in the same order. *)
Theorem returned_text_keeps_malayalam_characters
  BeautifulSoup html min soup t :
  BeautifulSoup html = Some soup ->
  process_and_check_malayalam_text BeautifulSoup html min = Some t ->
  List.filter in_malayalam_block t
  = List.filter in_malayalam_block (visible_text soup).
Proof.
  intros Hsoup (soup' & Hsoup' & -> & _)%process_some.
  rewrite Hsoup in Hsoup'. injection Hsoup' as <-.
  rewrite join_filter by apply findall_runs_of_block.
  symmetry. apply maximal_runs_filter, findall_malayalam_sound.
Qed.

Lemma returned_text_keeps_malayalam_characters_witness :
  let soup := [Tag (lit "p")
                 [Str NavigableString
                    ([0x0D05; 0x0D06] ++ lit " x " ++ [0x0D07]);
                  Tag (lit "script") [Str NavigableString [0x0D08]]]] in
  Samples.parser Samples.page_c = Some soup
  /\ process_and_check_malayalam_text Samples.parser Samples.page_c 4
     = Some [0x0D05; 0x0D06; 32; 0x0D07]
  /\ List.filter in_malayalam_block (visible_text soup)
     = [0x0D05; 0x0D06; 0x0D07].
Proof.
  intros soup.
  assert (Hsoup : Samples.parser Samples.page_c = Some soup)
    by (vm_compute; reflexivity).
  assert (H : process_and_check_malayalam_text Samples.parser Samples.page_c 4
              = Some [0x0D05; 0x0D06; 32; 0x0D07])
    by (vm_compute; reflexivity).
  split; [exact Hsoup|]. split; [exact H|].
  rewrite <- (returned_text_keeps_malayalam_characters
                Samples.parser Samples.page_c 4 soup _ Hsoup H).
  vm_compute. reflexivity.
Defined.

(** ** Names of archives and tokens *)

Lemma digits_intro unicode_Nd n s :
  length s = n -> Forall (fun c => unicode_Nd c = true) s ->
  digits unicode_Nd n s = true.
Proof.
  intros Hlen Hall. unfold digits. apply andb_true_iff. split.
  - by apply Nat.eqb_eq.
  - apply forallb_forall. intros c Hc%list_elem_of_In.
    rewrite Forall_forall in Hall. by apply Hall.
Qed.

(** The pattern matches at the start of every string of the expected
    form. *)
Lemma match_token_at_intro unicode_Nd stamp seq tail :
  length stamp = 14%nat -> Forall (fun c => unicode_Nd c = true) stamp ->
  length seq = 5%nat -> Forall (fun c => unicode_Nd c = true) seq ->
  tail = [] \/ tail = [10] ->
  match_token_at unicode_Nd
    (stamp ++ lit "-" ++ seq ++ lit ".warc.gz" ++ tail)
  = Some (stamp ++ lit "-" ++ seq).
Proof.
  intros Hlen14 Hstamp Hlen5 Hseq Htail. unfold match_token_at.
  set (s := stamp ++ lit "-" ++ seq ++ lit ".warc.gz" ++ tail).
  assert (H14 : take 14 s = stamp) by (by apply take_app_length').
  assert (D14 : drop 14 s = lit "-" ++ seq ++ lit ".warc.gz" ++ tail)
    by (by apply drop_app_length').
  assert (D15 : drop 15 s = seq ++ lit ".warc.gz" ++ tail).
  { change 15%nat with (14 + 1)%nat. by rewrite <- drop_drop, D14. }
  assert (D20 : drop 20 s = lit ".warc.gz" ++ tail).
  { change 20%nat with (15 + 5)%nat. rewrite <- drop_drop, D15.
    by apply drop_app_length'. }
  rewrite H14, D14, D15, D20.
  rewrite (take_app_length' seq) by done.
  change (take 1 (lit "-" ++ seq ++ lit ".warc.gz" ++ tail)) with (lit "-").
  change (drop 8 (lit ".warc.gz" ++ tail)) with tail.
  rewrite !digits_intro by done.
  unfold eqb_str, starts_with. rewrite bool_decide_eq_true_2 by done.
  rewrite bool_decide_eq_true_2 by done.
  by destruct Htail as [-> | ->].
Qed.

(** X4: every path that ends in 14 digits, a dash, 5 digits and
    [.warc.gz] (a final newline allowed) matches the pattern, whatever
    stands in front, and its token is that stamp-dash-sequence. *)
Theorem token_found_in_every_archive_name
  unicode_Nd before stamp seq tail :
  length stamp = 14%nat -> Forall (fun c => unicode_Nd c = true) stamp ->
  length seq = 5%nat -> Forall (fun c => unicode_Nd c = true) seq ->
  tail = [] \/ tail = [10] ->
  re_search_token unicode_Nd
    (before ++ stamp ++ lit "-" ++ seq ++ lit ".warc.gz" ++ tail)
  = Some (stamp ++ lit "-" ++ seq).
Proof.
  intros Hlen14 Hstamp Hlen5 Hseq Htail.
  pose proof (match_token_at_intro unicode_Nd stamp seq tail
                Hlen14 Hstamp Hlen5 Hseq Htail) as Hhere.
  induction before as [|c before IH].
  - cbn [app]. destruct stamp as [|d stamp]; [done|].
    cbn [re_search_token app] in *. by rewrite Hhere.
  - cbn [re_search_token app].
    destruct (match_token_at unicode_Nd
                (c :: before ++ stamp ++ lit "-" ++ seq ++ lit ".warc.gz"
                   ++ tail)) as [token|] eqn:Hat; [|exact IH].
    exfalso.
    apply match_token_at_shape in Hat
      as (stamp' & seq' & tail' & Heq & Htail' & -> & Hl14 & Hl5 & _).
    pose proof (f_equal length Heq) as Hlen.
    cbn [length] in Hlen. rewrite !length_app in Hlen.
    change (length (lit "-")) with 1%nat in Hlen.
    change (length (lit ".warc.gz")) with 8%nat in Hlen.
    rewrite Hlen14, Hlen5, Hl14, Hl5 in Hlen.
    destruct Htail as [-> | ->], Htail' as [-> | ->];
      cbn [length] in Hlen; try lia.
    assert (before = []) as -> by (destruct before; [done|simpl in Hlen; lia]).
    apply (f_equal last) in Heq. revert Heq.
    rewrite last_cons, !last_app. discriminate.
Qed.

Lemma token_found_in_every_archive_name_witness :
  let stamp := lit "20231103000000" in
  let seq := lit "00001" in
  length stamp = 14%nat
  /\ Forall (fun c => Samples.ascii_digit c = true) stamp
  /\ length seq = 5%nat
  /\ Forall (fun c => Samples.ascii_digit c = true) seq
  /\ re_search_token Samples.ascii_digit Samples.local_a
     = Some Samples.token_a.
Proof.
  intros stamp seq.
  assert (H14 : length stamp = 14%nat) by reflexivity.
  assert (Hstamp : Forall (fun c => Samples.ascii_digit c = true) stamp)
    by (repeat constructor).
  assert (H5 : length seq = 5%nat) by reflexivity.
  assert (Hseq : Forall (fun c => Samples.ascii_digit c = true) seq)
    by (repeat constructor).
  repeat (split; [done|]).
  exact (token_found_in_every_archive_name Samples.ascii_digit
           (lit "Extracted_files/CC-MAIN-") stamp seq []
           H14 Hstamp H5 Hseq (or_introl eq_refl)).
Defined.

Lemma basename_from_no_slash p : forall cur,
  slash ∉ cur -> slash ∉ basename_from cur p.
Proof.
  induction p as [|c p IH]; intros cur Hcur; [done|]. simpl.
  destruct (N.eqb_spec c slash) as [->|Hc].
  - apply IH, not_elem_of_nil.
  - apply IH. intros [Hin|Hin%list_elem_of_singleton]%elem_of_app;
      [by apply Hcur|by apply Hc].
Qed.

Lemma basename_from_plain b : forall cur,
  slash ∉ b -> basename_from cur b = cur ++ b.
Proof.
  induction b as [|c b IH]; intros cur Hb; simpl.
  - by rewrite app_nil_r.
  - apply not_elem_of_cons in Hb as [Hc Hb].
    rewrite (proj2 (N.eqb_neq c slash)) by done.
    rewrite IH by done. by rewrite <- app_assoc.
Qed.

Lemma basename_from_directory d b : forall cur,
  basename_from cur (d ++ slash :: b) = basename_from [] (d ++ slash :: b).
Proof.
  induction d as [|c d IH]; intros cur; simpl.
  - reflexivity.
  - destruct (c =? slash); [done|]. by rewrite IH, (IH [c]).
Qed.

Lemma basename_of_joined d b :
  slash ∉ b -> os_path_basename (d ++ slash :: b) = b.
Proof.
  intros Hb. unfold os_path_basename.
  induction d as [|c d IH]; simpl.
  - by rewrite basename_from_plain.
  - destruct (c =? slash); [done|]. by rewrite basename_from_directory.
Qed.

Lemma os_path_join_output b :
  slash ∉ b -> os_path_join OUTPUT_DIRECTORY b = OUTPUT_DIRECTORY ++ b.
Proof.
  intros Hb. unfold os_path_join. destruct b as [|c b]; [done|].
  apply not_elem_of_cons in Hb as [Hc _].
  by rewrite (proj2 (N.eqb_neq c slash)) by done.
Qed.

(** X5: the local name of an archive is the download directory followed
    by the part of the URL after its last slash.  That part holds no
    slash, so the archive lies directly in the download directory, and
    the local name has the basename of the URL. *)
Theorem archive_saved_in_download_directory url :
  let local_filename :=
    os_path_join OUTPUT_DIRECTORY (os_path_basename url) in
  local_filename = OUTPUT_DIRECTORY ++ os_path_basename url
  /\ (slash ∉ os_path_basename url)
  /\ (os_path_basename url `suffix_of` url)
  /\ os_path_basename local_filename = os_path_basename url.
Proof.
  assert (Hplain : slash ∉ os_path_basename url)
    by apply basename_from_no_slash, not_elem_of_nil.
  cbv zeta. rewrite os_path_join_output by done.
  split; [done|]. split; [done|].
  split; [apply (basename_from_suffix url [])|].
  change OUTPUT_DIRECTORY with (lit "Extracted_files" ++ [slash]).
  rewrite <- app_assoc. by apply basename_of_joined.
Qed.

(** ** Converting an archive *)

Lemma os_path_join_last a b : b <> [] -> last (os_path_join a b) = last b.
Proof.
  intros Hb. unfold os_path_join. destruct b as [|c b]; [done|].
  assert (Hlast : is_Some (last (c :: b))).
  { destruct (last (c :: b)) eqn:Hl; [by eexists|]. by apply last_None in Hl. }
  destruct Hlast as [d Hd].
  destruct (c =? slash); [done|].
  destruct (last a) as [e|]; [destruct (e =? slash)|];
    by rewrite ?(assoc_L app a), last_app, Hd.
Qed.

(** The name of an output file ends in [t]; the path of an archive that
    has a token ends in [z] or in a newline. *)
Lemma output_path_not_archive unicode_Nd warc_file_path output_dir token :
  re_search_token unicode_Nd warc_file_path = Some token ->
  output_path_of output_dir token <> warc_file_path.
Proof.
  intros (before & stamp & seq & tail & Hpath & Htail & _)%re_search_token_shape
    Heq.
  apply (f_equal last) in Heq. revert Heq.
  unfold output_path_of. rewrite os_path_join_last by done.
  unfold output_name_of. rewrite Hpath, !last_app.
  by destruct Htail as [-> | ->].
Qed.

Section RunProperties.

Context (BeautifulSoup : list N -> option (list PageElement))
        (ArchiveIterator : list N -> list ArcWarcRecord * option exn)
        (wget : nat -> list (list N) -> spawn_result)
        (unicode_Nd : N -> bool)
        (size_on_disk : list N -> N)
        (repr_round2 : N -> N -> list N)
        (repr_minutes : nat -> nat -> list N).

#[local] Abbreviation scan_one := (scan_record BeautifulSoup unicode_Nd).
#[local] Abbreviation scan := (scan_records BeautifulSoup unicode_Nd).
#[local] Abbreviation texts_of := (accepted_texts BeautifulSoup).
#[local] Abbreviation convert :=
  (convert_warc_to_text BeautifulSoup ArchiveIterator unicode_Nd
     size_on_disk repr_round2 repr_minutes).
#[local] Abbreviation download := (download_with_retries wget).
#[local] Abbreviation one_line :=
  (process_line BeautifulSoup ArchiveIterator wget unicode_Nd
     size_on_disk repr_round2 repr_minutes).
#[local] Abbreviation all_lines :=
  (process_lines BeautifulSoup ArchiveIterator wget unicode_Nd
     size_on_disk repr_round2 repr_minutes).
#[local] Abbreviation run :=
  (main BeautifulSoup ArchiveIterator wget unicode_Nd
     size_on_disk repr_round2 repr_minutes).

Lemma accepted_texts_cons record records :
  texts_of (record :: records)
  = match accepted_text BeautifulSoup record with
    | Some text => text :: texts_of records
    | None => texts_of records
    end.
Proof. reflexivity. Qed.

Lemma scan_record_matched warc_file_path output_dir token bound record w :
  re_search_token unicode_Nd warc_file_path = Some token ->
  scan_one warc_file_path output_dir bound record w
  = match accepted_text BeautifulSoup record with
    | Some text =>
        let output_file_path := output_path_of output_dir token in
        (Ok (Some (output_name_of token, output_file_path)),
         set_files (<[output_file_path :=
                        default [] (files w !! output_file_path) ++ text]>
                      (files w)) w)
    | None => (Ok bound, w)
    end.
Proof.
  intros Htoken. unfold scan_record, accepted_text.
  destruct (eqb_str _ _); [|done].
  destruct (process_and_check_malayalam_text _ _ _); [|done].
  by rewrite Htoken.
Qed.

(** The loop over the records appends the accepted texts one after the
    other, with nothing between them. *)
Lemma scan_records_matched warc_file_path output_dir token records :
  re_search_token unicode_Nd warc_file_path = Some token ->
  forall bound w,
    scan warc_file_path output_dir records bound w
    = match texts_of records with
      | [] => (Ok bound, w)
      | texts =>
          let output_file_path := output_path_of output_dir token in
          (Ok (Some (output_name_of token, output_file_path)),
           set_files (<[output_file_path :=
                          default [] (files w !! output_file_path)
                            ++ concat texts]> (files w)) w)
      end.
Proof.
  intros Htoken. induction records as [|record records IH]; intros bound w;
    [done|].
  cbn [scan_records]. unfold bind at 1.
  rewrite (scan_record_matched _ _ token) by done.
  rewrite accepted_texts_cons.
  destruct (accepted_text BeautifulSoup record) as [text|];
    cbv beta iota zeta; [|apply IH].
  rewrite IH. destruct (texts_of records) as [|text' texts].
  - cbn [concat]. by rewrite app_nil_r.
  - cbv zeta. f_equal. unfold set_files. cbn [files events ticks].
    rewrite lookup_insert_eq, insert_insert_eq. cbn [default concat id].
    by rewrite <- app_assoc.
Qed.

(** A complete scan with accepted texts, step by step. *)
Lemma convert_matched_run
  warc_file_path output_dir csv archive records token w :
  files w !! warc_file_path = Some archive ->
  ArchiveIterator archive = (records, None) ->
  re_search_token unicode_Nd warc_file_path = Some token ->
  texts_of records <> [] ->
  let output_file_path := output_path_of output_dir token in
  let stored :=
    default [] (files w !! output_file_path) ++ concat (texts_of records) in
  let scanned := <[output_file_path := stored]> (files w) in
  let row :=
    csv_row [output_name_of token; output_file_path;
             repr_round2 (size_on_disk archive) (1024 * 1024);
             repr_round2 (size_on_disk stored) 1024;
             repr_minutes (ticks w) (S (ticks w))] in
  convert warc_file_path output_dir csv w
  = (Ok tt,
     {| files := <[csv := default [] (scanned !! csv) ++ row]> scanned;
        events := events w;
        ticks := S (S (ticks w)) |}).
Proof.
  intros Hfile Harchive Htoken Htexts output_file_path stored scanned row.
  unfold convert_warc_to_text.
  unfold bind at 1. cbn [time_time].
  unfold bind at 1. unfold read_file at 1. cbn [files]. rewrite Hfile.
  rewrite Harchive. unfold bind at 1.
  rewrite (scan_records_matched _ _ token) by done.
  destruct (texts_of records) as [|text texts] eqn:Hsome; [done|].
  cbv zeta. fold output_file_path.
  unfold bind, ret, time_time, os_path_getsize, append_file, set_files.
  cbn [files events ticks]. fold stored.
  rewrite (lookup_insert_ne (files w))
    by (by apply (output_path_not_archive unicode_Nd)).
  rewrite Hfile. cbn [files events ticks].
  by rewrite lookup_insert_eq.
Qed.

(** X6: an archive with a token in its path, read to its end and with
    at least one accepted text: the call returns; the output file of
    the token holds what it held followed by the accepted texts, in the
    order of the records and with nothing between them; one row is
    appended to the metrics log, naming the output file and giving the
    sizes of the archive and of the output file after the appends; no
    other file changes and no process is started. *)
Theorem archive_converted_with_one_metrics_row
  warc_file_path output_dir csv archive records token w :
  files w !! warc_file_path = Some archive ->
  ArchiveIterator archive = (records, None) ->
  re_search_token unicode_Nd warc_file_path = Some token ->
  texts_of records <> [] ->
  csv <> output_path_of output_dir token ->
  let output_file_path := output_path_of output_dir token in
  let stored :=
    default [] (files w !! output_file_path) ++ concat (texts_of records) in
  let row :=
    csv_row [output_name_of token; output_file_path;
             repr_round2 (size_on_disk archive) (1024 * 1024);
             repr_round2 (size_on_disk stored) 1024;
             repr_minutes (ticks w) (S (ticks w))] in
  exists w',
    convert warc_file_path output_dir csv w = (Ok tt, w')
    /\ files w' !! output_file_path = Some stored
    /\ files w' !! csv = Some (default [] (files w !! csv) ++ row)
    /\ (forall p, p <> output_file_path -> p <> csv ->
                  files w' !! p = files w !! p)
    /\ events w' = events w.
Proof.
  intros Hfile Harchive Htoken Htexts Hcsv output_file_path stored row.
  eexists. split.
  { by apply (convert_matched_run _ _ _ archive records token). }
  cbn [files events]. fold output_file_path. fold stored.
  split; [|split; [|split]].
  - rewrite lookup_insert_ne by done. by rewrite lookup_insert_eq.
  - rewrite lookup_insert_eq. by rewrite (lookup_insert_ne (files w)).
  - intros p Hp Hp'. by rewrite !lookup_insert_ne.
  - done.
Qed.

(** X7: when the reader finds the container damaged after it has
    yielded some records, the texts accepted from these records stay in
    the output file, no row is written to the metrics log, and the
    reader's exception leaves the function. *)
Theorem damaged_archive_keeps_texts_without_metrics
  warc_file_path output_dir csv archive records e token w :
  files w !! warc_file_path = Some archive ->
  ArchiveIterator archive = (records, Some e) ->
  re_search_token unicode_Nd warc_file_path = Some token ->
  texts_of records <> [] ->
  let output_file_path := output_path_of output_dir token in
  convert warc_file_path output_dir csv w
  = (Raise e,
     {| files := <[output_file_path :=
                     default [] (files w !! output_file_path)
                       ++ concat (texts_of records)]> (files w);
        events := events w;
        ticks := S (ticks w) |}).
Proof.
  intros Hfile Harchive Htoken Htexts output_file_path.
  unfold convert_warc_to_text.
  unfold bind at 1. cbn [time_time].
  unfold bind at 1. unfold read_file at 1. cbn [files]. rewrite Hfile.
  rewrite Harchive. unfold bind at 1.
  rewrite (scan_records_matched _ _ token) by done.
  destruct (texts_of records) as [|text texts] eqn:Hsome; [done|].
  reflexivity.
Qed.

(** X8: an archive that is not there: the function raises
    FileNotFoundError when it opens it, and no file is written. *)
Theorem missing_archive_raises warc_file_path output_dir csv w :
  files w !! warc_file_path = None ->
  convert_warc_to_text BeautifulSoup ArchiveIterator unicode_Nd
    size_on_disk repr_round2 repr_minutes warc_file_path output_dir csv w
  = (Raise FileNotFoundError,
     {| files := files w; events := events w; ticks := S (ticks w) |}).
Proof.
  intros Hfile. unfold convert_warc_to_text.
  unfold bind at 1. cbn [time_time].
  unfold bind at 1. unfold read_file at 1. cbn [files]. by rewrite Hfile.
Qed.

(** ** Retrieval that does not run out of attempts *)

Lemma check_call_wget_result url local_filename w :
  fst (check_call_wget wget url local_filename w)
  = match wget (spawned (events w)) (wget_argv url local_filename) with
    | SpawnError => Raise OSError
    | Exited returncode _ =>
        if (returncode =? 0)%Z then Ok tt
        else Raise (CalledProcessError returncode)
    end.
Proof.
  unfold check_call_wget.
  destruct (wget _ _) as [|returncode saved]; [done|].
  by destruct (returncode =? 0)%Z.
Qed.

Lemma check_call_wget_saved url local_filename w returncode data :
  wget (spawned (events w)) (wget_argv url local_filename)
  = Exited returncode (Some data) ->
  files (snd (check_call_wget wget url local_filename w)) !! local_filename
  = Some data.
Proof.
  intros Hwget. unfold check_call_wget. rewrite Hwget.
  destruct (returncode =? 0)%Z; cbn; by rewrite lookup_insert_eq.
Qed.

Lemma spawned_attempts argv seconds k :
  spawned (concat (replicate k [Spawn argv; Sleep seconds])) = k.
Proof. induction k as [|k IH]; [done|]. simpl. by rewrite IH. Qed.

(** [k] failing calls use up [k] iterations of the loop and leave every
    file but the destination as it was. *)
Lemma download_skip_failures url local_filename errors_path k : forall n w,
  attempts_fail wget (spawned (events w)) k (wget_argv url local_filename) ->
  exists w1,
    download (k + n) url local_filename errors_path w
    = download n url local_filename errors_path w1
    /\ events w1
       = events w ++ concat (replicate k [Spawn (wget_argv url local_filename);
                                          Sleep RETRY_DELAY])
    /\ (forall p, p <> local_filename -> files w1 !! p = files w !! p).
Proof.
  induction k as [|k IH]; intros n w Hfail.
  - exists w. cbn. by rewrite app_nil_r.
  - destruct (Hfail O) as (returncode & saved & Hwget & Hcode); [lia|].
    rewrite Nat.add_0_r in Hwget.
    pose proof (check_call_wget_failed wget url local_filename w _ _
                  Hwget Hcode) as Hraise.
    destruct (check_call_wget_effect wget url local_filename w)
      as (w1 & Hw1 & Hevents1 & Hfiles1).
    destruct (IH n (log_event (Sleep RETRY_DELAY) w1))
      as (w2 & Hrun & Hevents & Hfiles).
    { intros j Hj. cbn [log_event events].
      rewrite Hevents1, !spawned_app. cbn [spawned].
      destruct (Hfail (S j)) as (code & data & Hcall & Hne); [lia|].
      exists code, data. split; [|done]. rewrite <- Hcall. f_equal. lia. }
    exists w2. split; [|split].
    + cbn [Nat.add download_with_retries].
      destruct (check_call_wget wget url local_filename w) as [r w1'].
      simpl in Hraise, Hw1. subst r w1'. exact Hrun.
    + rewrite Hevents. cbn [log_event events]. rewrite Hevents1.
      cbn [replicate concat]. by rewrite <- !app_assoc.
    + intros p Hp. rewrite Hfiles by done. by apply Hfiles1.
Qed.

(** X9: when [k] calls of [wget] fail and the next one exits with
    status 0 while iterations are left, the statement is left by
    [break]: [wget] is not started again, there is no sleep after the
    successful call, the destination holds what that call saved, and no
    other file changes; in particular no row is written to the error
    log. *)
Theorem download_stops_at_first_success
  url local_filename errors_path k n saved w :
  attempts_fail wget (spawned (events w)) k (wget_argv url local_filename) ->
  wget (spawned (events w) + k)%nat (wget_argv url local_filename)
  = Exited 0 saved ->
  (k < n)%nat ->
  exists w',
    download n url local_filename errors_path w = (Ok true, w')
    /\ events w'
       = events w
           ++ concat (replicate k [Spawn (wget_argv url local_filename);
                                   Sleep RETRY_DELAY])
           ++ [Spawn (wget_argv url local_filename)]
    /\ (forall p, p <> local_filename -> files w' !! p = files w !! p)
    /\ (forall data, saved = Some data ->
                     files w' !! local_filename = Some data).
Proof.
  intros Hfail Hwget Hk.
  destruct (download_skip_failures url local_filename errors_path k
              (S (n - k - 1)) w Hfail) as (w1 & Hrun & Hevents & Hfiles).
  replace (k + S (n - k - 1))%nat with n in Hrun by lia.
  assert (Hcall : wget (spawned (events w1)) (wget_argv url local_filename)
                  = Exited 0 saved).
  { by rewrite Hevents, spawned_app, spawned_attempts. }
  pose proof (check_call_wget_result url local_filename w1) as Hresult.
  rewrite Hcall in Hresult. cbn in Hresult.
  destruct (check_call_wget_effect wget url local_filename w1)
    as (w' & Hw' & Hevents' & Hfiles').
  exists w'. split; [|split; [|split]].
  - rewrite Hrun. cbn [download_with_retries].
    destruct (check_call_wget wget url local_filename w1) as [r w2].
    simpl in Hresult, Hw'. by subst r w2.
  - rewrite Hevents', Hevents. by rewrite <- app_assoc.
  - intros p Hp. rewrite Hfiles' by done. by apply Hfiles.
  - intros data ->. rewrite <- Hw'. by eapply check_call_wget_saved.
Qed.

(** X10: an exception of the call that is no CalledProcessError is not
    caught: when [wget] cannot be started, the statement raises OSError
    at once, without sleeping or trying again and without a row in the
    error log, and the exception ends the loop over the entries. *)
Theorem spawn_error_ends_the_run line rest k w :
  let url := strip line in
  let local_filename :=
    os_path_join OUTPUT_DIRECTORY (os_path_basename url) in
  attempts_fail wget (spawned (events w)) k (wget_argv url local_filename) ->
  wget (spawned (events w) + k)%nat (wget_argv url local_filename)
  = SpawnError ->
  (k < MAX_RETRIES)%nat ->
  exists w',
    all_lines csv_file_path errors_file_path (line :: rest) w
    = (Raise OSError, w')
    /\ events w'
       = events w
           ++ concat (replicate k [Spawn (wget_argv url local_filename);
                                   Sleep RETRY_DELAY])
           ++ [Spawn (wget_argv url local_filename)]
    /\ (forall p, p <> local_filename -> files w' !! p = files w !! p).
Proof.
  intros url local_filename Hfail Hwget Hk.
  destruct (download_skip_failures url local_filename errors_file_path k
              (S (MAX_RETRIES - k - 1)) w Hfail)
    as (w1 & Hrun & Hevents & Hfiles).
  replace (k + S (MAX_RETRIES - k - 1))%nat with MAX_RETRIES in Hrun by lia.
  assert (Hcall : wget (spawned (events w1)) (wget_argv url local_filename)
                  = SpawnError).
  { by rewrite Hevents, spawned_app, spawned_attempts. }
  pose proof (check_call_wget_result url local_filename w1) as Hresult.
  rewrite Hcall in Hresult.
  destruct (check_call_wget_effect wget url local_filename w1)
    as (w' & Hw' & Hevents' & Hfiles').
  exists w'. split; [|split].
  - cbn [process_lines]. unfold bind at 1. unfold process_line.
    fold url. fold local_filename. unfold bind at 1. rewrite Hrun.
    cbn [download_with_retries].
    destruct (check_call_wget wget url local_filename w1) as [r w2].
    simpl in Hresult, Hw'. by subst r w2.
  - rewrite Hevents', Hevents. by rewrite <- app_assoc.
  - intros p Hp. rewrite Hfiles' by done. by apply Hfiles.
Qed.

(** ** What a whole run keeps *)

Lemma keeps_bind {A B} (R : world -> world -> Prop) (m : M A) (k : A -> M B) :
  (forall x y z, R x y -> R y z -> R x z) ->
  keeps R m -> (forall a, keeps R (k a)) -> keeps R (bind m k).
Proof.
  intros Htrans Hm Hk w. unfold bind. specialize (Hm w).
  destruct (m w) as [[a|e] w1]; cbn [snd] in *; [|done].
  eapply Htrans; [exact Hm|apply Hk].
Qed.

Lemma file_extends_refl path w : file_extends path w w.
Proof. intros held Hheld. exists []. by rewrite app_nil_r. Qed.

Lemma file_extends_trans path x y z :
  file_extends path x y -> file_extends path y z -> file_extends path x z.
Proof.
  intros Hxy Hyz held Hheld.
  destruct (Hxy held Hheld) as (more & Hy).
  destruct (Hyz _ Hy) as (more' & Hz).
  exists (more ++ more'). by rewrite app_assoc.
Qed.

Lemma file_extends_same_files path w w' :
  files w' = files w -> file_extends path w w'.
Proof. intros Hfiles held Hheld. exists []. by rewrite Hfiles, app_nil_r. Qed.

Lemma file_extends_elsewhere path w w' :
  files w' !! path = files w !! path -> file_extends path w w'.
Proof. intros Hsame held Hheld. exists []. by rewrite Hsame, app_nil_r. Qed.

Lemma append_only_bind {A B} path (m : M A) (k : A -> M B) :
  append_only path m -> (forall a, append_only path (k a)) ->
  append_only path (bind m k).
Proof. apply keeps_bind, file_extends_trans. Qed.

Lemma append_only_ret {A} path (a : A) : append_only path (ret a).
Proof. intros w. apply file_extends_refl. Qed.

Lemma append_only_append_file path target data :
  append_only path (append_file target data).
Proof.
  intros w held Hheld. cbn.
  destruct (decide (target = path)) as [->|Hne].
  - exists data. by rewrite lookup_insert_eq, Hheld.
  - exists []. by rewrite lookup_insert_ne, app_nil_r.
Qed.

Lemma append_only_scan_record path warc_file_path output_dir bound record :
  append_only path (scan_one warc_file_path output_dir bound record).
Proof.
  unfold scan_record. destruct (eqb_str _ _); [|apply append_only_ret].
  destruct (process_and_check_malayalam_text _ _ _);
    [|apply append_only_ret].
  destruct (re_search_token _ _); [|apply append_only_ret].
  apply append_only_bind; [apply append_only_append_file|].
  intros _. apply append_only_ret.
Qed.

Lemma append_only_scan_records path warc_file_path output_dir records :
  forall bound,
    append_only path (scan warc_file_path output_dir records bound).
Proof.
  induction records as [|record records IH]; intros bound.
  - intros w. apply file_extends_refl.
  - cbn [scan_records]. apply append_only_bind;
      [apply append_only_scan_record|apply IH].
Qed.

Lemma append_only_os_path_getsize path target :
  append_only path (os_path_getsize size_on_disk target).
Proof.
  intros w. unfold os_path_getsize.
  destruct (files w !! target); apply file_extends_refl.
Qed.

(** The function writes by appending only. *)
Lemma append_only_convert path warc_file_path output_dir csv :
  append_only path (convert warc_file_path output_dir csv).
Proof.
  unfold convert_warc_to_text. apply append_only_bind.
  { intros w. by apply file_extends_same_files. }
  intros start_time. apply append_only_bind.
  { intros w. unfold read_file.
    destruct (files w !! warc_file_path); apply file_extends_refl. }
  intros warc_file. destruct (ArchiveIterator warc_file) as [records damage].
  apply append_only_bind; [apply append_only_scan_records|].
  intros bound. apply append_only_bind.
  { destruct damage; intros w; apply file_extends_refl. }
  intros _. apply append_only_bind.
  { intros w. by apply file_extends_same_files. }
  intros end_time. apply append_only_bind;
    [apply append_only_os_path_getsize|].
  intros file_size_t. destruct bound as [[name output_file_path]|].
  - apply append_only_bind; [apply append_only_os_path_getsize|].
    intros output_file_size_t. apply append_only_append_file.
  - intros w. apply file_extends_refl.
Qed.

Lemma append_only_download path url local_filename errors_path n :
  path <> local_filename ->
  append_only path (download n url local_filename errors_path).
Proof.
  intros Hne. induction n as [|n IH].
  - cbn [download_with_retries]. apply append_only_bind;
      [apply append_only_append_file|].
    intros _ w. apply file_extends_refl.
  - intros w. cbn [download_with_retries].
    destruct (check_call_wget_effect wget url local_filename w)
      as (w1 & Hw1 & _ & Hfiles1).
    destruct (check_call_wget wget url local_filename w) as [r w1'].
    simpl in Hw1. subst w1'.
    assert (Hstep : file_extends path w w1)
      by (apply file_extends_elsewhere; by apply Hfiles1).
    destruct r as [[]|[]]; cbn [snd]; try exact Hstep.
    eapply file_extends_trans; [exact Hstep|].
    apply (append_only_bind path (time_sleep RETRY_DELAY)); [|by intros _].
    intros w2. by apply file_extends_same_files.
Qed.

Lemma append_only_os_remove path target :
  path <> target -> append_only path (os_remove target).
Proof.
  intros Hne w. unfold os_remove.
  destruct (files w !! target); [|apply file_extends_refl].
  apply file_extends_elsewhere. cbn. by rewrite lookup_delete_ne.
Qed.

Lemma append_only_process_line path csv errors_path line :
  EXTRACTED_TEXT_DIRECTORY `prefix_of` path ->
  append_only path (one_line csv errors_path line).
Proof.
  intros Hpath. unfold process_line.
  assert (Hne : path
                <> os_path_join OUTPUT_DIRECTORY
                     (os_path_basename (strip line))).
  { intros ->. by apply (local_filename_outside_output
                           (os_path_basename (strip line))). }
  apply append_only_bind; [by apply append_only_download|].
  intros [|]; [|intros w; apply file_extends_refl].
  apply append_only_bind; [apply append_only_convert|].
  intros _. by apply append_only_os_remove.
Qed.

(** X11: while the entries are processed, no file of the output
    directory, log or text, loses or changes anything it holds: at the
    end of the loop, reached normally or by an exception, each of them
    holds what it held before, possibly followed by more. *)
Theorem output_directory_files_only_grow path csv errors_path lines w :
  EXTRACTED_TEXT_DIRECTORY `prefix_of` path ->
  file_extends path w (snd (all_lines csv errors_path lines w)).
Proof.
  intros Hpath. revert w.
  induction lines as [|line lines IH]; intros w.
  - apply file_extends_refl.
  - cbn [process_lines].
    apply (append_only_bind path (one_line csv errors_path line));
      [by apply append_only_process_line|].
    intros _. exact IH.
Qed.

(** X12: however a run ends, the metrics log begins with its header row
    and the error log with its own: rows are only ever added after
    them. *)
Theorem logs_begin_with_header_after_run w :
  exists rows failures,
    files (snd (run w)) !! csv_file_path
    = Some (csv_row metrics_fieldnames ++ rows)
    /\ files (snd (run w)) !! errors_file_path
       = Some (csv_row errors_fieldnames ++ failures).
Proof.
  assert (Hgrow : forall path,
            EXTRACTED_TEXT_DIRECTORY `prefix_of` path ->
            file_extends path (snd (init_logs w)) (snd (run w))).
  { intros path Hpath. unfold main. unfold bind at 1.
    change (init_logs w) with (Ok tt, snd (init_logs w)).
    cbv beta iota.
    apply (append_only_bind path (read_file URL_PATH)).
    - intros w1. unfold read_file.
      destruct (files w1 !! URL_PATH); apply file_extends_refl.
    - intros url_file w1. clear w.
      revert w1. induction (readlines url_file) as [|line lines IH];
        intros w1; [apply file_extends_refl|].
      cbn [process_lines].
      apply (append_only_bind path
               (one_line csv_file_path errors_file_path line));
        [by apply append_only_process_line|].
      intros _. exact IH. }
  destruct (Hgrow csv_file_path csv_file_path_in_output
              (csv_row metrics_fieldnames)) as (rows & Hrows).
  { cbn. rewrite lookup_insert_ne by (vm_compute; discriminate).
    by rewrite lookup_insert_eq. }
  destruct (Hgrow errors_file_path errors_file_path_in_output
              (csv_row errors_fieldnames)) as (failures & Hfailures).
  { cbn. by rewrite lookup_insert_eq. }
  by exists rows, failures.
Qed.

Lemma same_events_trans x y z :
  same_events x y -> same_events y z -> same_events x z.
Proof. unfold same_events. congruence. Qed.

Lemma silent_bind {A B} (m : M A) (k : A -> M B) :
  silent m -> (forall a, silent (k a)) -> silent (bind m k).
Proof. apply keeps_bind, same_events_trans. Qed.

Lemma silent_ret {A} (a : A) : silent (ret a).
Proof. by intros w. Qed.

Lemma silent_append_file target data : silent (append_file target data).
Proof. by intros w. Qed.

Lemma silent_os_path_getsize target :
  silent (os_path_getsize size_on_disk target).
Proof. intros w. unfold os_path_getsize. by destruct (files w !! target). Qed.

Lemma silent_scan_records warc_file_path output_dir records : forall bound,
  silent (scan warc_file_path output_dir records bound).
Proof.
  induction records as [|record records IH]; intros bound;
    [apply silent_ret|].
  cbn [scan_records]. apply silent_bind; [|apply IH].
  unfold scan_record. destruct (eqb_str _ _); [|apply silent_ret].
  destruct (process_and_check_malayalam_text _ _ _); [|apply silent_ret].
  destruct (re_search_token _ _); [|apply silent_ret].
  apply silent_bind; [apply silent_append_file|].
  intros _. apply silent_ret.
Qed.

Lemma silent_convert warc_file_path output_dir csv :
  silent (convert warc_file_path output_dir csv).
Proof.
  unfold convert_warc_to_text. apply silent_bind; [by intros w|].
  intros start_time. apply silent_bind.
  { intros w. unfold read_file. by destruct (files w !! warc_file_path). }
  intros warc_file. destruct (ArchiveIterator warc_file) as [records damage].
  apply silent_bind; [apply silent_scan_records|].
  intros bound. apply silent_bind; [by destruct damage; intros w|].
  intros _. apply silent_bind; [by intros w|].
  intros end_time. apply silent_bind; [apply silent_os_path_getsize|].
  intros file_size_t. destruct bound as [[name output_file_path]|].
  - apply silent_bind; [apply silent_os_path_getsize|].
    intros output_file_size_t. apply silent_append_file.
  - by intros w.
Qed.

Lemma silent_os_remove target : silent (os_remove target).
Proof. intros w. unfold os_remove. by destruct (files w !! target). Qed.

(** X13: the function never overwrites, truncates or removes a file,
    and starts no process: however it ends, every file holds what it
    held, possibly followed by more, and the trace of processes and
    sleeps is as before. *)
Theorem conversion_only_appends path warc_file_path output_dir csv w :
  file_extends path w (snd (convert warc_file_path output_dir csv w))
  /\ events (snd (convert warc_file_path output_dir csv w)) = events w.
Proof.
  split.
  - apply append_only_convert.
  - apply silent_convert.
Qed.

Lemma process_line_spawn_bound csv errors_path line w :
  (spawned (events (snd (one_line csv errors_path line w)))
   <= spawned (events w) + MAX_RETRIES)%nat.
Proof.
  unfold process_line.
  set (url := strip line).
  set (local_filename := os_path_join OUTPUT_DIRECTORY (os_path_basename url)).
  pose proof (download_bound wget url local_filename errors_path MAX_RETRIES w)
    as Hbound.
  unfold bind at 1.
  destruct (download MAX_RETRIES url local_filename errors_path w)
    as [[[|]|e] w1]; cbn [snd] in *; try exact Hbound.
  assert (Hsilent : silent
            (bind (convert local_filename EXTRACTED_TEXT_DIRECTORY csv)
               (fun _ => os_remove local_filename))).
  { apply silent_bind; [apply silent_convert|].
    intros _. apply silent_os_remove. }
  by rewrite (Hsilent w1).
Qed.

(** X14: a run over a list of entries starts [wget] at most MAX_RETRIES
    times per entry, however the attempts and the conversions end. *)
Theorem wget_started_boundedly_often csv errors_path lines w :
  (spawned (events (snd (all_lines csv errors_path lines w)))
   <= spawned (events w) + MAX_RETRIES * length lines)%nat.
Proof.
  revert w. induction lines as [|line lines IH]; intros w.
  - cbn. lia.
  - cbn [process_lines length]. unfold bind at 1.
    pose proof (process_line_spawn_bound csv errors_path line w) as Hline.
    destruct (one_line csv errors_path line w) as [[[]|e] w1];
      cbn [snd] in *.
    + specialize (IH w1). lia.
    + lia.
Qed.



(** X16: without the file of URLs the run ends in FileNotFoundError,
    after both logs have been reset to their header rows. *)
Theorem missing_url_list_raises_after_reset w :
  files w !! URL_PATH = None ->
  exists w0,
    run w = (Raise FileNotFoundError, w0)
    /\ files w0 !! csv_file_path = Some (csv_row metrics_fieldnames)
    /\ files w0 !! errors_file_path = Some (csv_row errors_fieldnames)
    /\ (forall p, p <> csv_file_path -> p <> errors_file_path ->
                  files w0 !! p = files w !! p)
    /\ events w0 = events w.
Proof.
  intros Hmissing. eexists. split.
  - unfold main. unfold bind at 1.
    change (init_logs w) with (Ok tt, snd (init_logs w)). cbv beta iota.
    unfold bind at 1. unfold read_file at 1.
    unfold init_logs, bind, write_file, set_files.
    cbn [snd files events ticks].
    rewrite !lookup_insert_ne by (vm_compute; discriminate).
    rewrite Hmissing. reflexivity.
  - cbn [files events]. split; [|split; [|split]].
    + rewrite lookup_insert_ne by (vm_compute; discriminate).
      by rewrite lookup_insert_eq.
    + by rewrite lookup_insert_eq.
    + intros p Hcsv Herr. by rewrite !lookup_insert_ne.
    + done.
Qed.

Lemma lstrip_blank s :
  Forall (fun c => isspace c = true) s -> lstrip s = [].
Proof. induction 1 as [|c s Hc _ IH]; [done|]. simpl. by rewrite Hc. Qed.

(** X17: a line of white space only is not skipped: it is an entry with
    the empty URL, whose archive would be saved under the name of the
    download directory itself; when the attempts fail, that name is the
    row of the error log. *)
Theorem blank_line_is_an_entry line w :
  Forall (fun c => isspace c = true) line ->
  attempts_fail wget (spawned (events w)) MAX_RETRIES
    (wget_argv [] OUTPUT_DIRECTORY) ->
  exists w',
    one_line csv_file_path errors_file_path line w = (Ok tt, w')
    /\ events w'
       = events w
           ++ concat (replicate MAX_RETRIES
                        [Spawn (wget_argv [] OUTPUT_DIRECTORY);
                         Sleep RETRY_DELAY])
    /\ files w' !! errors_file_path
       = Some (default [] (files w !! errors_file_path)
                 ++ csv_row [OUTPUT_DIRECTORY]).
Proof.
  intros Hblank Hfail.
  assert (Hurl : strip line = [])
    by (unfold strip; by rewrite lstrip_blank).
  destruct (download_all_fail wget [] OUTPUT_DIRECTORY errors_file_path
              MAX_RETRIES w Hfail) as (w' & Hrun & Hevents & _ & Hlog & _).
  exists w'. split; [|split; [exact Hevents|]].
  - unfold process_line. rewrite Hurl.
    change (os_path_join OUTPUT_DIRECTORY (os_path_basename []))
      with OUTPUT_DIRECTORY.
    unfold bind at 1. by rewrite Hrun.
  - apply Hlog. vm_compute. discriminate.
Qed.

End RunProperties.

(** ** The further properties on concrete runs *)

Lemma archive_converted_with_one_metrics_row_witness :
  let w := Samples.world_with Samples.local_a Samples.page_a in
  let records := [{| rec_type := lit "response";
                     content_stream := Samples.page_a |}] in
  let dest := lit "Extracted Texts/extracted_text_20231103000000-00001.txt" in
  files w !! Samples.local_a = Some Samples.page_a
  /\ Samples.one_response Samples.page_a = (records, None)
  /\ re_search_token Samples.ascii_digit Samples.local_a
     = Some Samples.token_a
  /\ accepted_texts Samples.parser records <> []
  /\ csv_file_path <> output_path_of EXTRACTED_TEXT_DIRECTORY Samples.token_a
  /\ exists w',
       convert_warc_to_text Samples.parser Samples.one_response
         Samples.ascii_digit Samples.size_on_disk Samples.repr_round2
         Samples.repr_minutes Samples.local_a EXTRACTED_TEXT_DIRECTORY
         csv_file_path w
       = (Ok tt, w')
       /\ files w' !! dest = Some (replicate 50 Samples.malayalam_a).
Proof.
  intros w records dest.
  assert (Hfile : files w !! Samples.local_a = Some Samples.page_a)
    by (vm_compute; reflexivity).
  assert (Harchive : Samples.one_response Samples.page_a = (records, None))
    by reflexivity.
  assert (Htoken : re_search_token Samples.ascii_digit Samples.local_a
                   = Some Samples.token_a)
    by (vm_compute; reflexivity).
  assert (Htexts : accepted_texts Samples.parser records <> [])
    by (vm_compute; discriminate).
  assert (Hcsv : csv_file_path
                 <> output_path_of EXTRACTED_TEXT_DIRECTORY Samples.token_a)
    by (vm_compute; discriminate).
  repeat (split; [done|]).
  destruct (archive_converted_with_one_metrics_row Samples.parser
              Samples.one_response Samples.ascii_digit Samples.size_on_disk
              Samples.repr_round2 Samples.repr_minutes Samples.local_a
              EXTRACTED_TEXT_DIRECTORY csv_file_path Samples.page_a records
              Samples.token_a w Hfile Harchive Htoken Htexts Hcsv)
    as (w' & Hrun & Hdest & _).
  exists w'. split; [exact Hrun|].
  change dest with (output_path_of EXTRACTED_TEXT_DIRECTORY Samples.token_a).
  rewrite Hdest. vm_compute. reflexivity.
Defined.

Lemma damaged_archive_keeps_texts_without_metrics_witness :
  let w := Samples.world_with Samples.local_a Samples.page_a in
  let records := [{| rec_type := lit "response";
                     content_stream := Samples.page_a |}] in
  let dest := lit "Extracted Texts/extracted_text_20231103000000-00001.txt" in
  let outcome :=
    convert_warc_to_text Samples.parser Samples.damaged_after_one
      Samples.ascii_digit Samples.size_on_disk Samples.repr_round2
      Samples.repr_minutes Samples.local_a EXTRACTED_TEXT_DIRECTORY
      csv_file_path w in
  files w !! Samples.local_a = Some Samples.page_a
  /\ Samples.damaged_after_one Samples.page_a
     = (records, Some ArchiveLoadFailed)
  /\ re_search_token Samples.ascii_digit Samples.local_a
     = Some Samples.token_a
  /\ accepted_texts Samples.parser records <> []
  /\ fst outcome = Raise ArchiveLoadFailed
  /\ files (snd outcome) !! dest = Some (replicate 50 Samples.malayalam_a)
  /\ files (snd outcome) !! csv_file_path = None.
Proof.
  intros w records dest outcome.
  assert (Hfile : files w !! Samples.local_a = Some Samples.page_a)
    by (vm_compute; reflexivity).
  assert (Harchive : Samples.damaged_after_one Samples.page_a
                     = (records, Some ArchiveLoadFailed))
    by reflexivity.
  assert (Htoken : re_search_token Samples.ascii_digit Samples.local_a
                   = Some Samples.token_a)
    by (vm_compute; reflexivity).
  assert (Htexts : accepted_texts Samples.parser records <> [])
    by (vm_compute; discriminate).
  repeat (split; [done|]).
  subst outcome.
  rewrite (damaged_archive_keeps_texts_without_metrics Samples.parser
             Samples.damaged_after_one Samples.ascii_digit
             Samples.size_on_disk Samples.repr_round2 Samples.repr_minutes
             Samples.local_a EXTRACTED_TEXT_DIRECTORY csv_file_path
             Samples.page_a records ArchiveLoadFailed Samples.token_a w
             Hfile Harchive Htoken Htexts).
  repeat split; vm_compute; reflexivity.
Defined.

Lemma missing_archive_raises_witness :
  files Samples.empty_world !! Samples.local_a = None
  /\ fst (convert_warc_to_text Samples.parser Samples.one_response
            Samples.ascii_digit Samples.size_on_disk Samples.repr_round2
            Samples.repr_minutes Samples.local_a EXTRACTED_TEXT_DIRECTORY
            csv_file_path Samples.empty_world)
     = Raise FileNotFoundError.
Proof.
  assert (Hfile : files Samples.empty_world !! Samples.local_a = None)
    by (vm_compute; reflexivity).
  split; [exact Hfile|].
  by rewrite (missing_archive_raises Samples.parser Samples.one_response
                Samples.ascii_digit Samples.size_on_disk Samples.repr_round2
                Samples.repr_minutes Samples.local_a EXTRACTED_TEXT_DIRECTORY
                csv_file_path Samples.empty_world Hfile).
Defined.

Lemma download_stops_at_first_success_witness :
  let argv := wget_argv Samples.url_a Samples.local_a in
  let wget := Samples.wget_serves_third Samples.page_a in
  attempts_fail wget 0 2 argv
  /\ wget 2%nat argv = Exited 0 (Some Samples.page_a)
  /\ (2 < MAX_RETRIES)%nat
  /\ exists w',
       download_with_retries wget MAX_RETRIES Samples.url_a Samples.local_a
         errors_file_path Samples.empty_world
       = (Ok true, w')
       /\ events w' = [Spawn argv; Sleep 10; Spawn argv; Sleep 10; Spawn argv]
       /\ files w' !! Samples.local_a = Some Samples.page_a
       /\ files w' !! errors_file_path = None.
Proof.
  intros argv wget.
  assert (Hfail : attempts_fail wget 0 2 argv).
  { intros j Hj. exists 8%Z, None. split; [|lia].
    destruct j as [|[|j]]; [reflexivity|reflexivity|lia]. }
  assert (Hcall : wget 2%nat argv = Exited 0 (Some Samples.page_a))
    by reflexivity.
  assert (Hk : (2 < MAX_RETRIES)%nat) by (unfold MAX_RETRIES; lia).
  repeat (split; [done|]).
  destruct (download_stops_at_first_success wget Samples.url_a
              Samples.local_a errors_file_path 2 MAX_RETRIES
              (Some Samples.page_a) Samples.empty_world Hfail Hcall Hk)
    as (w' & Hrun & Hevents & Hfiles & Hsaved).
  exists w'. split; [exact Hrun|]. split; [exact Hevents|].
  split; [by apply Hsaved|].
  rewrite Hfiles by (vm_compute; discriminate). vm_compute. reflexivity.
Defined.

Lemma spawn_error_ends_the_run_witness :
  let line := Samples.url_a ++ [10] in
  let argv := wget_argv Samples.url_a Samples.local_a in
  attempts_fail Samples.wget_missing 0 0 argv
  /\ Samples.wget_missing 0%nat argv = SpawnError
  /\ (0 < MAX_RETRIES)%nat
  /\ exists w',
       process_lines Samples.parser Samples.one_response Samples.wget_missing
         Samples.ascii_digit Samples.size_on_disk Samples.repr_round2
         Samples.repr_minutes csv_file_path errors_file_path [line; line]
         Samples.empty_world
       = (Raise OSError, w')
       /\ events w' = [Spawn argv].
Proof.
  intros line argv.
  assert (Hfail : attempts_fail Samples.wget_missing 0 0 argv)
    by (intros j Hj; lia).
  assert (Hcall : Samples.wget_missing 0%nat argv = SpawnError)
    by reflexivity.
  assert (Hk : (0 < MAX_RETRIES)%nat) by (unfold MAX_RETRIES; lia).
  repeat (split; [done|]).
  destruct (spawn_error_ends_the_run Samples.parser Samples.one_response
              Samples.wget_missing Samples.ascii_digit Samples.size_on_disk
              Samples.repr_round2 Samples.repr_minutes line [line] 0
              Samples.empty_world Hfail Hcall Hk)
    as (w' & Hrun & Hevents & _).
  exists w'. split; [exact Hrun|exact Hevents].
Defined.

Lemma output_directory_files_only_grow_witness :
  let line := Samples.url_a ++ [10] in
  let w := Samples.world_with csv_file_path (csv_row metrics_fieldnames) in
  EXTRACTED_TEXT_DIRECTORY `prefix_of` csv_file_path
  /\ files w !! csv_file_path = Some (csv_row metrics_fieldnames)
  /\ exists more,
       files (snd (process_lines Samples.parser Samples.one_response
                     (Samples.wget_serves Samples.page_a) Samples.ascii_digit
                     Samples.size_on_disk Samples.repr_round2
                     Samples.repr_minutes csv_file_path errors_file_path
                     [line] w))
         !! csv_file_path
       = Some (csv_row metrics_fieldnames ++ more).
Proof.
  intros line w.
  assert (Hprefix : EXTRACTED_TEXT_DIRECTORY `prefix_of` csv_file_path)
    by (by exists (lit "extraction_info.csv")).
  assert (Hheld : files w !! csv_file_path
                  = Some (csv_row metrics_fieldnames))
    by (vm_compute; reflexivity).
  split; [exact Hprefix|]. split; [exact Hheld|].
  exact (output_directory_files_only_grow Samples.parser
           Samples.one_response (Samples.wget_serves Samples.page_a)
           Samples.ascii_digit Samples.size_on_disk Samples.repr_round2
           Samples.repr_minutes csv_file_path csv_file_path
           errors_file_path [line] w Hprefix _ Hheld).
Defined.


Lemma missing_url_list_raises_after_reset_witness :
  let w := Samples.world_with csv_file_path (lit "rows of an earlier run") in
  files w !! URL_PATH = None
  /\ exists w0,
       main Samples.parser Samples.one_response Samples.wget_fails
         Samples.ascii_digit Samples.size_on_disk Samples.repr_round2
         Samples.repr_minutes w
       = (Raise FileNotFoundError, w0)
       /\ files w0 !! csv_file_path = Some (csv_row metrics_fieldnames).
Proof.
  intros w.
  assert (Hmissing : files w !! URL_PATH = None) by (vm_compute; reflexivity).
  split; [exact Hmissing|].
  destruct (missing_url_list_raises_after_reset Samples.parser
              Samples.one_response Samples.wget_fails Samples.ascii_digit
              Samples.size_on_disk Samples.repr_round2 Samples.repr_minutes
              w Hmissing) as (w0 & Hrun & Hcsv & _).
  exists w0. split; [exact Hrun|exact Hcsv].
Defined.

Lemma blank_line_is_an_entry_witness :
  let line := lit "  " ++ [13; 10] in
  Forall (fun c => isspace c = true) line
  /\ attempts_fail Samples.wget_fails 0 MAX_RETRIES
       (wget_argv [] OUTPUT_DIRECTORY)
  /\ exists w',
       process_line Samples.parser Samples.one_response Samples.wget_fails
         Samples.ascii_digit Samples.size_on_disk Samples.repr_round2
         Samples.repr_minutes csv_file_path errors_file_path line
         Samples.empty_world
       = (Ok tt, w')
       /\ files w' !! errors_file_path
          = Some (lit "Extracted_files/" ++ [13; 10]).
Proof.
  intros line.
  assert (Hblank : Forall (fun c => isspace c = true) line)
    by (repeat constructor).
  assert (Hfail : attempts_fail Samples.wget_fails 0 MAX_RETRIES
                    (wget_argv [] OUTPUT_DIRECTORY)).
  { intros j _. exists 8%Z, None. split; [reflexivity|lia]. }
  split; [exact Hblank|]. split; [exact Hfail|].
  destruct (blank_line_is_an_entry Samples.parser Samples.one_response
              Samples.wget_fails Samples.ascii_digit Samples.size_on_disk
              Samples.repr_round2 Samples.repr_minutes line
              Samples.empty_world Hblank Hfail)
    as (w' & Hline & _ & Hlog).
  exists w'. split; [exact Hline|]. rewrite Hlog. vm_compute. reflexivity.
Defined.
